(** * Kazam noise cleaner (sox.py): a shallow embedding and its properties

    The program is shell-out glue: it builds command strings, runs them
    with [os.system], allocates temporary names with
    [tempfile.NamedTemporaryFile(delete=False)] and removes files with
    [os.unlink].  The embedding keeps that shape: a state-and-exception
    monad over a world made of the set of existing paths, the text written
    to standard output and a chronological log of the effects performed.
    What the external tools, the temp-file allocator and Python's float
    conversions do is supplied by a [Host].

    Not modelled: the contents of files, what the tools write to the
    terminal, and a tool that never ends ([os.system] is taken to return).
    The world holds path strings: two paths that name one file are two
    entries, so statements about removals are about the paths handed to
    [os.unlink], and a path that exists but cannot be removed is not
    represented. *)

From Stdlib Require Import ZArith String Ascii List.
From Corelib Require Import PrimFloat.
From stdpp Require Import base decidable option list gmap sets strings pretty.

Set Warnings "-inexact-float,-clear-no-such-hyp".
Open Scope string_scope.

(** ** Python values and exceptions *)

(** The values that reach a ['%s'] conversion or [os.unlink] in sox.py. *)
Inductive pyval : Type :=
  | PyNone
  | PyStr (s : string)
  | PyInt (z : Z)
  | PyFloat (f : float).

(** The exceptions the program can end with.  [Exception] is the bare
    [raise Exception] of [exec_shell_cmd_for_file]; the others come from
    the runtime ([os.unlink], [list.pop], [float], tuple unpacking, an
    unbound name, [exit]). *)
Inductive exn : Type :=
  | Exception
  | FileNotFoundError (path : string)
  | TypeError
  | ValueError
  | IndexError
  | NameError
  | SystemExit (code : Z).

Inductive result (A : Type) : Type :=
  | Ok (a : A)
  | Raise (e : exn).
Arguments Ok {A} a.
Arguments Raise {A} e.

(** ** The world *)

(** Effects, in the order they happen. [EvTemp n]: the temp-file facility
    created the file [n]. [EvSystem cmd st]: [os.system(cmd)] ran to
    completion and returned [st]. [EvUnlink p]: [os.unlink(p)] removed [p]. *)
Inductive event : Type :=
  | EvTemp (name : string)
  | EvSystem (cmd : string) (status : Z)
  | EvUnlink (path : string).

Record World : Type := mkWorld {
  files  : gset string;   (* paths that exist *)
  stdout : string;        (* text printed so far *)
  trace  : list event     (* effects so far, oldest first *)
}.

(** What the program does not decide. The external process may do anything
    to the set of files and return any status; it may depend on everything
    that happened before. *)
Record Host : Type := mkHost {
  run_process  : string -> World -> Z * gset string;  (* os.system *)
  tmp_name     : World -> string;     (* NamedTemporaryFile(delete=False).name *)
  float_str    : float -> string;     (* '%s' % x for a float x *)
  float_parse  : string -> option float  (* float(s); None is ValueError *)
}.

(** The events added between two worlds. *)
Definition since (w w' : World) : list event :=
  drop (length (trace w)) (trace w').

(** The statuses returned by the processes of a log. *)
Fixpoint statuses (evs : list event) : list Z :=
  match evs with
  | [] => []
  | EvSystem _ st :: evs' => st :: statuses evs'
  | _ :: evs' => statuses evs'
  end.

(** The commands run in a log. *)
Fixpoint commands (evs : list event) : list string :=
  match evs with
  | [] => []
  | EvSystem cmd _ :: evs' => cmd :: commands evs'
  | _ :: evs' => commands evs'
  end.

(** The paths removed in a log. *)
Fixpoint unlinked (evs : list event) : list string :=
  match evs with
  | [] => []
  | EvUnlink p :: evs' => p :: unlinked evs'
  | _ :: evs' => unlinked evs'
  end.

(** The temp files created in a log. *)
Fixpoint temps (evs : list event) : list string :=
  match evs with
  | [] => []
  | EvTemp n :: evs' => n :: temps evs'
  | _ :: evs' => temps evs'
  end.

(** ** The monad: state passing with exceptions *)

Definition M (A : Type) : Type := World -> result A * World.

Definition ret {A} (a : A) : M A := fun w => (Ok a, w).

Definition raise {A} (e : exn) : M A := fun w => (Raise e, w).

Definition bind {A B} (m : M A) (k : A -> M B) : M B :=
  fun w =>
    match m w with
    | (Ok a, w') => k a w'
    | (Raise e, w') => (Raise e, w')
    end.

Declare Scope py_scope.
Delimit Scope py_scope with py.
Bind Scope py_scope with M.
Notation "x <- c1 ;; c2" := (bind c1 (fun x => c2))
  (at level 20, c1 at level 99, c2 at level 200, only parsing) : py_scope.
Notation "c1 ;; c2" := (bind c1 (fun _ => c2))
  (at level 100, c2 at level 200, only parsing, right associativity) : py_scope.
Open Scope py_scope.

(** [for x in xs: body(x)] *)
Fixpoint for_each {A} (xs : list A) (body : A -> M unit) : M unit :=
  match xs with
  | [] => ret tt
  | x :: xs' => body x ;; for_each xs' body
  end.

(** The exit status of the interpreter for a finished run: 0 after a normal
    end, the code of [exit(code)], 1 after an unhandled exception. *)
Definition exit_status {A} (r : result A) : Z :=
  match r with
  | Ok _ => 0
  | Raise (SystemExit code) => code
  | Raise _ => 1
  end.

(** ** Runtime primitives *)

Definition nl : string := String (ascii_of_nat 10) EmptyString.

Section Runtime.
Variable h : Host.

(** ['%s' % v] *)
Definition str (v : pyval) : string :=
  match v with
  | PyNone => "None"
  | PyStr s => s
  | PyInt z => pretty z
  | PyFloat f => float_str h f
  end.

(** [os.system(cmd)]: blocks until the process ends, returns its status. *)
Definition os_system (cmd : string) : M Z :=
  fun w =>
    let '(st, fs) := run_process h cmd w in
    (Ok st, mkWorld fs (stdout w) (trace w ++ [EvSystem cmd st])).

(** [os.unlink(path)]: removes an existing path, raises
    [FileNotFoundError] for a missing one and [TypeError] for a value
    that is not a path. *)
Definition os_unlink (path : pyval) : M unit :=
  fun w =>
    match path with
    | PyStr p =>
        if decide (p ∈ files w)
        then (Ok tt, mkWorld (files w ∖ {[p]}) (stdout w) (trace w ++ [EvUnlink p]))
        else (Raise (FileNotFoundError p), w)
    | _ => (Raise TypeError, w)
    end.

(** [tempfile.NamedTemporaryFile(delete=False).name]: the facility picks
    a name and creates the file; the file object is dropped at once and,
    with [delete=False], the file stays. *)
Definition NamedTemporaryFile : M string :=
  fun w =>
    let n := tmp_name h w in
    (Ok n, mkWorld ({[n]} ∪ files w) (stdout w) (trace w ++ [EvTemp n])).

(** [print(s)] *)
Definition print (s : string) : M unit :=
  fun w => (Ok tt, mkWorld (files w) (stdout w ++ s ++ nl) (trace w)).

(** [exit(code)] *)
Definition exit (code : Z) : M unit := raise (SystemExit code).
End Runtime.

(** ** class Sox *)

Definition avprog : string := "ffmpeg".
Definition soxprog : string := "sox".
Definition audio_suffix : string := "mp3".
Definition video_suffix : string := "mp4".
Definition noise_len : string := "00:00:01".
Definition noise_sens : pyval := PyFloat 0.21.

Record Sox : Type := mkSox {
  infile  : pyval;
  outfile : pyval
}.

(** [Sox(infile, outfile, overwrite)]; the defaults of the source are
    [outfile=None] and [overwrite=False]. *)
Definition __init__ (infile outfile : pyval) (overwrite : bool) : Sox :=
  mkSox infile (if overwrite then infile else outfile).

(** Truth value of an optional codec name in [if acodec:]. *)
Definition truthy (c : option string) : bool :=
  match c with
  | Some EmptyString | None => false
  | Some _ => true
  end.

(** ['%s' % c] for an optional codec name. *)
Definition codec_str (c : option string) : string :=
  match c with
  | Some s => s
  | None => "None"
  end.

Section Pipeline.
Variable h : Host.

Definition exec_shell_cmd_for_file (cmd : string) (outfile : pyval) : M pyval :=
  st <- os_system h cmd ;;
  if (st =? 0)%Z then ret outfile
  else os_unlink outfile ;; raise Exception.

Definition __extract (self : Sox) (acodec vcodec : option string)
    (suffix : string) : M pyval :=
  name <- NamedTemporaryFile h ;;
  let outfile := name ++ "." ++ suffix in
  let acodec_str :=
    if truthy acodec then "-acodec " ++ codec_str acodec else "-an" in
  let vcodec_str :=
    if truthy vcodec then "-vcodec " ++ codec_str vcodec else "-vn" in
  let cmd := avprog ++ " -y -i " ++ str h (infile self) ++ " " ++ acodec_str
             ++ " " ++ vcodec_str ++ " " ++ outfile in
  exec_shell_cmd_for_file cmd (PyStr outfile).

Definition extract_video (self : Sox) : M pyval :=
  __extract self None (Some "copy") video_suffix.

Definition extract_audio (self : Sox) : M pyval :=
  __extract self (Some "copy") None audio_suffix.

Definition get_noise_sample (self : Sox) (audio : pyval) : M pyval :=
  name <- NamedTemporaryFile h ;;
  let outfile := name ++ "." ++ audio_suffix in
  let cmd := avprog ++ " -y -i " ++ str h audio
             ++ " -acodec copy -ss 00:00:00 -t " ++ noise_len ++ " " ++ outfile in
  exec_shell_cmd_for_file cmd (PyStr outfile).

Definition gen_noise_profile (self : Sox) (sample : pyval) : M pyval :=
  name <- NamedTemporaryFile h ;;
  let outfile := name ++ ".prof" in
  let cmd := soxprog ++ " " ++ str h sample ++ " -n noiseprof " ++ outfile in
  exec_shell_cmd_for_file cmd (PyStr outfile).

Definition remove_noise (self : Sox) (audio profile sensitivity : pyval)
    : M pyval :=
  name <- NamedTemporaryFile h ;;
  let outfile := name ++ "." ++ audio_suffix in
  let cmd := soxprog ++ " " ++ str h audio ++ " " ++ outfile ++ " noisered "
             ++ str h profile ++ " " ++ str h sensitivity in
  exec_shell_cmd_for_file cmd (PyStr outfile).

Definition merge (self : Sox) (video audio : pyval) : M pyval :=
  let cmd := avprog ++ " -y -i " ++ str h video ++ " -i " ++ str h audio
             ++ " -vcodec copy -acodec copy " ++ str h (outfile self) in
  exec_shell_cmd_for_file cmd (outfile self).

Definition increase_volume (self : Sox) (audio factor : pyval) : M pyval :=
  name <- NamedTemporaryFile h ;;
  let outfile := name ++ "." ++ audio_suffix in
  let cmd := soxprog ++ " -v " ++ str h factor ++ " " ++ str h audio
             ++ " " ++ outfile in
  exec_shell_cmd_for_file cmd (PyStr outfile).

Definition clean (self : Sox) : M unit :=
  video_only_file <- extract_video self ;;
  audio_only_file <- extract_audio self ;;
  noise_sample <- get_noise_sample self audio_only_file ;;
  noise_profile <- gen_noise_profile self noise_sample ;;
  clean_audio <- remove_noise self audio_only_file noise_profile noise_sens ;;
  merge self video_only_file clean_audio ;;
  for_each [video_only_file; audio_only_file; noise_sample; noise_profile;
            clean_audio] (os_unlink).

(** The default of the source is [factor=1.5]. *)
Definition incrvol (self : Sox) (factor : pyval) : M unit :=
  video_only_file <- extract_video self ;;
  audio_only_file <- extract_audio self ;;
  louder_audio <- increase_volume self audio_only_file factor ;;
  merge self video_only_file louder_audio ;;
  for_each [video_only_file; audio_only_file; louder_audio] (os_unlink).
End Pipeline.

(** ** The script under [if __name__ == '__main__'] *)

(** [l.index(x)]: position of the first occurrence; [None] is ValueError. *)
Fixpoint list_index (x : string) (l : list string) : option nat :=
  match l with
  | [] => None
  | y :: l' => if decide (y = x) then Some 0 else S <$> list_index x l'
  end.

(** [l.pop(i)] for [i >= 0]: the element and the shortened list; [None] is
    IndexError. *)
Definition list_pop {A} (i : nat) (l : list A) : option (A * list A) :=
  match l !! i with
  | Some x => Some (x, delete i l)
  | None => None
  end.

(** [l[i]] for [i >= 0]. *)
Definition getitem {A} (l : list A) (i : nat) : M A :=
  match l !! i with
  | Some x => ret x
  | None => raise IndexError
  end.

(** [os.path.basename(p)]: what follows the last slash. [acc] is the
    component read since the last slash. *)
Fixpoint basename_from (acc p : string) : string :=
  match p with
  | EmptyString => acc
  | String c p' =>
      if Ascii.eqb c "/" then basename_from EmptyString p'
      else basename_from (acc ++ String c EmptyString) p'
  end.

Definition basename (p : string) : string := basename_from EmptyString p.

Section Script.
Variable h : Host.

(** The flag handling: the script's [sys.argv], [do_clean] and [factor]
    after the [if]/[elif]/[else]; [factor] stays unbound ([None]) unless
    ['-v'] was given. *)
Definition parse_flags (argv : list string)
    : M (list string * bool * option float) :=
  if decide ("-v" ∈ argv) then
    match list_index "-v" argv with
    | None => raise ValueError
    | Some idx =>
        match list_pop idx argv with
        | None => raise IndexError
        | Some (_, argv1) =>
            match list_pop idx argv1 with
            | None => raise IndexError
            | Some (s, argv2) =>
                match float_parse h s with
                | None => raise ValueError
                | Some factor => ret (argv2, false, Some factor)
                end
            end
        end
    end
  else if decide ("-c" ∈ argv) then
    match list_index "-c" argv with
    | None => raise ValueError
    | Some idx =>
        match list_pop idx argv with
        | None => raise IndexError
        | Some (_, argv1) => ret (argv1, true, None)
        end
    end
  else
    print "Clean the noise:" ;;
    a0 <- getitem argv 0 ;;
    print (basename a0 ++ " -c IN-FILE OUT-FILE") ;;
    print (nl ++ "Increase the volume") ;;
    a0 <- getitem argv 0 ;;
    print (basename a0 ++ " -v FACTOR IN-FILE OUT-FILE") ;;
    exit 1 ;;
    ret (argv, true, None).

Definition main (argv : list string) : M unit :=
  st <- parse_flags argv ;;
  let '(argv', do_clean, factor) := st in
  match drop 1 argv' with
  | [infile; outfile] =>
      let sox := __init__ (PyStr infile) (PyStr outfile) false in
      if (do_clean : bool) then clean h sox
      else match factor with
           | Some f => incrvol h sox (PyFloat f)
           | None => raise NameError
           end
  | _ => raise ValueError
  end.
End Script.

(** ** Hosts to run the model on *)

(** The words of a command line, split at spaces. *)
Fixpoint words_from (acc s : string) : list string :=
  match s with
  | EmptyString => [acc]
  | String c s' =>
      if Ascii.eqb c " " then acc :: words_from EmptyString s'
      else words_from (acc ++ String c EmptyString) s'
  end.

Definition words (s : string) : list string := words_from EmptyString s.

(** The file a command of the pipeline writes: the second operand of
    [sox IN OUT noisered ...], the last word otherwise. *)
Definition output_of (cmd : string) : option string :=
  match words cmd with
  | _ :: _ :: out :: "noisered" :: _ => Some out
  | ws => last ws
  end.

(** Tools that do their work: a command outside [fails] writes its output
    file and returns 0; a command in [fails] returns 256 (exit status 1)
    and, when [partial] is set, still leaves its output file behind. *)
Definition studio_process (fails : string -> bool) (partial : bool)
    (cmd : string) (w : World) : Z * gset string :=
  let written :=
    match output_of cmd with
    | Some o => {[o]} ∪ files w
    | None => files w
    end in
  if fails cmd then (256%Z, if partial then written else files w)
  else (0%Z, written).

(** Temp names numbered by the length of the log. *)
Definition studio_tmp (w : World) : string :=
  "/tmp/tmp" ++ pretty (length (trace w)).

(** Float conversions on the few values used below. *)
Definition studio_float_str (f : float) : string :=
  if PrimFloat.eqb f 0.21 then "0.21"
  else if PrimFloat.eqb f 1.5 then "1.5"
  else if PrimFloat.eqb f 2 then "2.0"
  else if PrimFloat.eqb f 1 then "1.0"
  else if PrimFloat.eqb f 0 then "0.0"
  else "nan".

Definition studio_float_parse (s : string) : option float :=
  if decide (s = "2.0") then Some 2%float
  else if decide (s = "1.5") then Some 1.5%float
  else if decide (s = "0.21") then Some 0.21%float
  else None.

Definition studio (fails : string -> bool) (partial : bool) : Host :=
  mkHost (studio_process fails partial) studio_tmp
         studio_float_str studio_float_parse.

(** Tools replaced by stubs that return 0 and write nothing. *)
Definition stub_host : Host :=
  mkHost (fun _ w => (0%Z, files w)) studio_tmp
         studio_float_str studio_float_parse.

Definition never : string -> bool := fun _ => false.
Definition always : string -> bool := fun _ => true.

(** The remux command is the one with two inputs. *)
Definition is_remux (cmd : string) : bool :=
  bool_decide (length (filter (fun x => x = "-i") (words cmd)) = 2).

(** The noise-profile command. *)
Definition is_profile (cmd : string) : bool :=
  bool_decide ("noiseprof" ∈ words cmd).

(** An allocator that is fresh on every world: the first name, in stdpp's
    enumeration of strings, that is not a file yet. *)
Definition fresh_tmp (w : World) : string := fresh (files w).

Definition fresh_host : Host :=
  mkHost (studio_process never false) fresh_tmp
         studio_float_str studio_float_parse.

(** An allocator whose names all have nine characters. *)
Definition nine_tmp (w : World) : string :=
  "/tmp/tmp" ++ String (ascii_of_nat (97 + length (trace w) mod 26)) EmptyString.

Definition nine_host : Host :=
  mkHost (studio_process never false) nine_tmp
         studio_float_str studio_float_parse.

(** A world with the given files, nothing printed, nothing done. *)
Definition world_of (fs : list string) : World :=
  mkWorld (list_to_set fs) EmptyString [].

(** The two jobs of the documented command lines, on a disk that holds the
    input only. *)
Definition job_clean : Sox :=
  __init__ (PyStr "input.mp4") (PyStr "clean.mp4") false.

Definition job_louder : Sox :=
  __init__ (PyStr "input.mp4") (PyStr "louder.mp4") false.

Definition disk : World := world_of ["input.mp4"].

(** ** Vocabulary of the statements *)

(** [ran h w pre cmd out res]: [res] is what running [cmd] for the output
    [out] from the world [w] gave, after the events [pre]: the four ways
    [exec_shell_cmd_for_file] can end. *)
Inductive ran (w : World) (pre : list event) (cmd : string) (out : pyval)
    : result pyval * World -> Prop :=
  | ran_ok w' :
      trace w' = (trace w ++ pre ++ [EvSystem cmd 0%Z])%list ->
      ran w pre cmd out (Ok out, w')
  | ran_deleted st p w' :
      st <> 0%Z -> out = PyStr p ->
      trace w' = (trace w ++ pre ++ [EvSystem cmd st; EvUnlink p])%list ->
      p ∉ files w' ->
      ran w pre cmd out (Raise Exception, w')
  | ran_missing st p w' :
      st <> 0%Z -> out = PyStr p ->
      trace w' = (trace w ++ pre ++ [EvSystem cmd st])%list ->
      p ∉ files w' ->
      ran w pre cmd out (Raise (FileNotFoundError p), w')
  | ran_not_a_path st w' :
      st <> 0%Z -> (forall p, out <> PyStr p) ->
      trace w' = (trace w ++ pre ++ [EvSystem cmd st])%list ->
      ran w pre cmd out (Raise TypeError, w').

(** [emits P Q m]: whatever the world, the events [m] adds to the log all
    satisfy [P], and a value [m] returns satisfies [Q]. *)
Definition emits {A} (P : event -> Prop) (Q : A -> Prop) (m : M A) : Prop :=
  forall w, exists l,
    trace (m w).2 = (trace w ++ l)%list /\ Forall P l
    /\ forall a, (m w).1 = Ok a -> Q a.

(** The allocator never hands out the name of an existing file. *)
Definition tmp_fresh (h : Host) : Prop :=
  forall w, tmp_name h w ∉ files w.

(** The path of an intermediate file: a name of the allocator followed by
    one of the three extensions the pipeline appends. *)
Definition intermediate (h : Host) (p : string) : Prop :=
  exists w ext, ext ∈ [".mp4"; ".mp3"; ".prof"] /\ p = tmp_name h w ++ ext.

(** An event that removes nothing but an intermediate file or the file at
    the job's output path. *)
Definition tidy (h : Host) (self : Sox) (e : event) : Prop :=
  forall p, e = EvUnlink p -> intermediate h p \/ outfile self = PyStr p.

(** A value that is the path of an intermediate file. *)
Definition intermediate_path (h : Host) (v : pyval) : Prop :=
  exists p, v = PyStr p /\ intermediate h p.

(** [spares p m]: whatever the world, running [m] does not remove [p]. *)
Definition spares {A} (p : string) (m : M A) : Prop :=
  forall w, p ∉ unlinked (since w (m w).2).

(** The allocator's names all have one length, as the random names of the
    temp-file facility do. *)
Definition fixed_length_names (h : Host) : Prop :=
  forall w1 w2, String.length (tmp_name h w1) = String.length (tmp_name h w2).

(** [one_shot m]: whatever the world, [m] runs exactly one process, and it
    returns a value exactly when that process returned 0. *)
Definition one_shot (m : M pyval) : Prop :=
  forall w, exists cmd st,
    commands (since w (m w).2) = [cmd]
    /\ statuses (since w (m w).2) = [st]
    /\ ((exists v, (m w).1 = Ok v) <-> st = 0%Z).

(** [only_removes P m]: whatever the world, every path that [m] hands to
    [os.unlink] with success satisfies [P]. *)
Definition only_removes {A} (P : string -> Prop) (m : M A) : Prop :=
  forall w p, p ∈ unlinked (since w (m w).2) -> P p.


(** * Properties *)

(** ** Reading a log *)

Lemma statuses_app (l1 l2 : list event) :
  statuses (l1 ++ l2) = (statuses l1 ++ statuses l2)%list.
Proof.
  induction l1 as [|e l1 IH]; [done|].
  destruct e; cbn; by rewrite IH.
Qed.

Lemma unlinked_app (l1 l2 : list event) :
  unlinked (l1 ++ l2) = (unlinked l1 ++ unlinked l2)%list.
Proof.
  induction l1 as [|e l1 IH]; [done|].
  destruct e; cbn; by rewrite IH.
Qed.

Lemma unlinked_map_EvUnlink (ps : list string) :
  unlinked (map EvUnlink ps) = ps.
Proof. induction ps as [|p ps IH]; [done|]. cbn. by rewrite IH. Qed.

(** ** One command *)

(** What [exec_shell_cmd_for_file] does, by the status of the process and
    by the fate of [os.unlink]. *)
Lemma exec_shell_cmd_for_file_eq (h : Host) (cmd : string) (out : pyval) (w : World) :
  exec_shell_cmd_for_file h cmd out w =
    let w1 := mkWorld (run_process h cmd w).2 (stdout w)
                      (trace w ++ [EvSystem cmd (run_process h cmd w).1]) in
    if ((run_process h cmd w).1 =? 0)%Z then (Ok out, w1)
    else match out with
         | PyStr p =>
             if decide (p ∈ (run_process h cmd w).2)
             then (Raise Exception,
                   mkWorld ((run_process h cmd w).2 ∖ {[p]}) (stdout w)
                           (trace w ++ [EvSystem cmd (run_process h cmd w).1; EvUnlink p]))
             else (Raise (FileNotFoundError p), w1)
         | _ => (Raise TypeError, w1)
         end.
Proof.
  unfold exec_shell_cmd_for_file, bind, os_system.
  destruct (run_process h cmd w) as [st fs]; cbn.
  destruct (st =? 0)%Z; [done|].
  destruct out as [|p| |]; cbn; try done.
  destruct (decide (p ∈ fs)); cbn; [|done].
  by rewrite <- app_assoc.
Qed.

(** ** The monad *)

Lemma bind_Ok {A B} (m : M A) (k : A -> M B) (w w' : World) (a : A) :
  m w = (Ok a, w') -> bind m k w = k a w'.
Proof. unfold bind. by intros ->. Qed.

Lemma bind_Raise {A B} (m : M A) (k : A -> M B) (w w' : World) (e : exn) :
  m w = (Raise e, w') -> bind m k w = (Raise e, w').
Proof. unfold bind. by intros ->. Qed.

Lemma since_trace (w w' : World) (l : list event) :
  trace w' = (trace w ++ l)%list -> since w w' = l.
Proof. unfold since. intros ->. apply drop_app_length. Qed.

(** ** The four ends of a command *)

Lemma exec_shell_cmd_for_file_ran (h : Host) (cmd : string) (out : pyval) (w : World) :
  ran w [] cmd out (exec_shell_cmd_for_file h cmd out w).
Proof.
  rewrite exec_shell_cmd_for_file_eq. cbn zeta.
  destruct (run_process h cmd w) as [st fs]; cbn [fst snd].
  destruct (Z.eqb_spec st 0) as [->|Hst].
  - by apply ran_ok.
  - destruct out as [|p| |].
    + by eapply ran_not_a_path.
    + destruct (decide (p ∈ fs)).
      * eapply ran_deleted; [done..|]. cbn.
        apply not_elem_of_difference. right. by apply elem_of_singleton.
      * by eapply ran_missing.
    + by eapply ran_not_a_path.
    + by eapply ran_not_a_path.
Qed.

(** A stage that allocates its output name first. *)
Lemma temp_stage_ran (h : Host) (cmd_of out_of : string -> string) (w : World) :
  ran w [EvTemp (tmp_name h w)] (cmd_of (tmp_name h w))
      (PyStr (out_of (tmp_name h w)))
      (bind (NamedTemporaryFile h)
            (fun name => exec_shell_cmd_for_file h (cmd_of name) (PyStr (out_of name))) w).
Proof.
  unfold bind at 1, NamedTemporaryFile.
  set (n := tmp_name h w).
  set (w1 := mkWorld _ _ _).
  pose proof (exec_shell_cmd_for_file_ran h (cmd_of n) (PyStr (out_of n)) w1) as R.
  destruct R as [w' Ht|st p w' Hst Hp Ht Hf|st p w' Hst Hp Ht Hf|st w' Hst Hp Ht];
    cbn in Ht; rewrite <- app_assoc in Ht.
  - by apply ran_ok.
  - by eapply ran_deleted.
  - by eapply ran_missing.
  - by eapply ran_not_a_path.
Qed.

Section Stages.
Variables (h : Host) (self : Sox) (w : World).

Lemma extract_video_ran :
  ran w [EvTemp (tmp_name h w)]
      ("ffmpeg -y -i " ++ str h (infile self) ++ " -an -vcodec copy " ++ tmp_name h w ++ ".mp4")
      (PyStr (tmp_name h w ++ ".mp4")) (extract_video h self w).
Proof.
  exact (temp_stage_ran h
    (fun n => "ffmpeg -y -i " ++ str h (infile self) ++ " -an -vcodec copy " ++ tmp_name h w ++ ".mp4")
    (fun n => n ++ ".mp4") w).
Qed.

Lemma extract_audio_ran :
  ran w [EvTemp (tmp_name h w)]
      ("ffmpeg -y -i " ++ str h (infile self) ++ " -acodec copy -vn " ++ tmp_name h w ++ ".mp3")
      (PyStr (tmp_name h w ++ ".mp3")) (extract_audio h self w).
Proof.
  exact (temp_stage_ran h
    (fun n => "ffmpeg -y -i " ++ str h (infile self) ++ " -acodec copy -vn " ++ tmp_name h w ++ ".mp3")
    (fun n => n ++ ".mp3") w).
Qed.

Lemma get_noise_sample_ran (audio : pyval) :
  ran w [EvTemp (tmp_name h w)]
      ("ffmpeg -y -i " ++ str h audio ++ " -acodec copy -ss 00:00:00 -t 00:00:01 "
       ++ tmp_name h w ++ ".mp3")
      (PyStr (tmp_name h w ++ ".mp3")) (get_noise_sample h self audio w).
Proof.
  exact (temp_stage_ran h
    (fun n => "ffmpeg -y -i " ++ str h audio
              ++ " -acodec copy -ss 00:00:00 -t 00:00:01 " ++ tmp_name h w ++ ".mp3")
    (fun n => n ++ ".mp3") w).
Qed.

Lemma gen_noise_profile_ran (sample : pyval) :
  ran w [EvTemp (tmp_name h w)]
      ("sox " ++ str h sample ++ " -n noiseprof " ++ tmp_name h w ++ ".prof")
      (PyStr (tmp_name h w ++ ".prof")) (gen_noise_profile h self sample w).
Proof.
  exact (temp_stage_ran h
    (fun n => "sox " ++ str h sample ++ " -n noiseprof " ++ tmp_name h w ++ ".prof")
    (fun n => n ++ ".prof") w).
Qed.

Lemma remove_noise_ran (audio profile sensitivity : pyval) :
  ran w [EvTemp (tmp_name h w)]
      ("sox " ++ str h audio ++ " " ++ (tmp_name h w ++ ".mp3") ++ " noisered "
       ++ str h profile ++ " " ++ str h sensitivity)
      (PyStr (tmp_name h w ++ ".mp3")) (remove_noise h self audio profile sensitivity w).
Proof.
  exact (temp_stage_ran h
    (fun n => "sox " ++ str h audio ++ " " ++ (tmp_name h w ++ ".mp3") ++ " noisered "
              ++ str h profile ++ " " ++ str h sensitivity)
    (fun n => n ++ ".mp3") w).
Qed.

Lemma increase_volume_ran (audio factor : pyval) :
  ran w [EvTemp (tmp_name h w)]
      ("sox -v " ++ str h factor ++ " " ++ str h audio ++ " " ++ tmp_name h w ++ ".mp3")
      (PyStr (tmp_name h w ++ ".mp3")) (increase_volume h self audio factor w).
Proof.
  exact (temp_stage_ran h
    (fun n => "sox -v " ++ str h factor ++ " " ++ str h audio ++ " " ++ tmp_name h w ++ ".mp3")
    (fun n => n ++ ".mp3") w).
Qed.

Lemma merge_ran (video audio : pyval) :
  ran w []
      ("ffmpeg -y -i " ++ str h video ++ " -i " ++ str h audio
       ++ " -vcodec copy -acodec copy " ++ str h (outfile self))
      (outfile self) (merge h self video audio w).
Proof. apply exec_shell_cmd_for_file_ran. Qed.
End Stages.

(** ** The cleanup loop *)

Lemma unlink_loop_step (p : string) (ps : list pyval) (w : World) :
  for_each (PyStr p :: ps) os_unlink w =
    if decide (p ∈ files w)
    then for_each ps os_unlink
           (mkWorld (files w ∖ {[p]}) (stdout w) (trace w ++ [EvUnlink p]))
    else (Raise (FileNotFoundError p), w).
Proof.
  cbn [for_each]. unfold bind, os_unlink.
  by destruct (decide (p ∈ files w)).
Qed.

(** The loop removes the paths in order and stops at the first one that
    does not exist. [k] is the number of paths removed. *)
Lemma unlink_loop_run (ps : list string) (w : World) :
  exists k : nat,
    trace (for_each (map PyStr ps) os_unlink w).2
      = (trace w ++ map EvUnlink (take k ps))%list
    /\ files (for_each (map PyStr ps) os_unlink w).2
      = files w ∖ list_to_set (take k ps)
    /\ ((for_each (map PyStr ps) os_unlink w).1 = Ok tt /\ k = length ps
        \/ exists f, ps !! k = Some f
                     /\ (f ∉ files (for_each (map PyStr ps) os_unlink w).2)
                     /\ (for_each (map PyStr ps) os_unlink w).1
                        = Raise (FileNotFoundError f)).
Proof.
  revert w. induction ps as [|p ps IH]; intros w.
  - exists 0. cbn. split; [by rewrite app_nil_r|].
    split; [by rewrite difference_empty_L|]. by left.
  - cbn [map]. rewrite unlink_loop_step.
    destruct (decide (p ∈ files w)) as [Hin|Hout].
    + set (w1 := mkWorld _ _ _).
      destruct (IH w1) as (k & Ht & Hfs & Hr). exists (S k). split; [|split].
      * rewrite Ht. cbn. by rewrite <- app_assoc.
      * rewrite Hfs. cbn. by rewrite difference_difference_l_L.
      * destruct Hr as [[Hr ->]|(f & Hf & Hr)]; [by left|].
        right. by exists f.
    + exists 0. cbn. split; [by rewrite app_nil_r|].
      split; [by rewrite difference_empty_L|]. right. by exists p.
Qed.

(** ** Stepping through a pipeline *)

(** [run_stage R Hres]: [R] is the [ran] fact of the stage at the head of the
    computation in [Hres : res = bind stage k w]; one goal per way the stage
    can end, with [Hres] advanced past the stage. *)
Ltac run_stage R Hres :=
  let Heq := fresh "Heq" in
  inversion R as [?w ?Ht Heq
                 |?st ?p ?w ?Hst ?Hp ?Ht ?Hgone Heq
                 |?st ?p ?w ?Hst ?Hp ?Ht ?Hgone Heq
                 |?st ?w ?Hst ?Hp ?Ht Heq];
  symmetry in Heq;
  [ rewrite (bind_Ok _ _ _ _ _ Heq) in Hres
  | rewrite (bind_Raise _ _ _ _ _ Heq) in Hres
  | rewrite (bind_Raise _ _ _ _ _ Heq) in Hres
  | rewrite (bind_Raise _ _ _ _ _ Heq) in Hres ];
  clear R Heq.

(** A failed stage after [k] successful ones: find [k]. *)
Ltac failed_after k :=
  first [ exists k; eexists; split; [lia|]; split; [eassumption|]; reflexivity
        | failed_after (S k) ].

(** A run is not all zeros when it ends with a non-zero status. *)
Lemma not_all_zero (k : nat) (st : Z) (sts : list Z) :
  st <> 0%Z -> sts = (replicate k 0%Z ++ [st])%list ->
  ~ Forall (fun st => st = 0%Z) sts.
Proof.
  intros Hst -> H. apply Forall_app in H as [_ H].
  by inversion H.
Qed.

(** Keep one equation for the log of the latest world. *)
Ltac merge_traces :=
  repeat match goal with
         | Hacc : trace ?w1 = (trace _ ++ _)%list,
           Ht : trace _ = (trace ?w1 ++ _)%list |- _ =>
             rewrite Hacc in Ht; rewrite <- app_assoc in Ht; clear Hacc
         end.

(** The stage ended with a non-zero status: the run is over and its log
    holds that status. *)
Ltac stage_failed res :=
  left; subst res; cbn [fst snd]; eexists; split; [eassumption|];
  split; [|by eexists];
  failed_after 0.

Section CleanRun.
Variables (h : Host) (self : Sox) (w : World).

(** Either a process of the run returned a non-zero status, or the six
    stages ran in order and the run continued with the cleanup loop. *)
Lemma clean_run_cases :
  (exists l, trace (clean h self w).2 = (trace w ++ l)%list
             /\ (exists k st, k < 6 /\ st <> 0%Z
                              /\ statuses l = (replicate k 0%Z ++ [st])%list)
             /\ exists e, (clean h self w).1 = Raise e)
  \/ exists (n1 n2 n3 n4 n5 : string) (w6 : World),
       let v := n1 ++ ".mp4" in
       let a := n2 ++ ".mp3" in
       let s := n3 ++ ".mp3" in
       let p := n4 ++ ".prof" in
       let c := n5 ++ ".mp3" in
       trace w6 =
         (trace w ++
          [EvTemp n1;
           EvSystem ("ffmpeg -y -i " ++ str h (infile self)
                     ++ " -an -vcodec copy " ++ v) 0;
           EvTemp n2;
           EvSystem ("ffmpeg -y -i " ++ str h (infile self)
                     ++ " -acodec copy -vn " ++ a) 0;
           EvTemp n3;
           EvSystem ("ffmpeg -y -i " ++ a
                     ++ " -acodec copy -ss 00:00:00 -t 00:00:01 " ++ s) 0;
           EvTemp n4;
           EvSystem ("sox " ++ s ++ " -n noiseprof " ++ p) 0;
           EvTemp n5;
           EvSystem ("sox " ++ a ++ " " ++ c ++ " noisered " ++ p ++ " "
                     ++ str h noise_sens) 0;
           EvSystem ("ffmpeg -y -i " ++ v ++ " -i " ++ c
                     ++ " -vcodec copy -acodec copy " ++ str h (outfile self)) 0])%list
       /\ clean h self w = for_each (map PyStr [v; a; s; p; c]) os_unlink w6
       /\ Forall (fun n => exists w0, n = tmp_name h w0) [n1; n2; n3; n4; n5].
Proof.
  set (res := clean h self w).
  assert (Hres : res = clean h self w) by done. clearbody res.
  unfold clean in Hres.
  pose proof (extract_video_ran h self w) as R.
  run_stage R Hres; [|stage_failed res..].
  pose proof (extract_audio_ran h self w0) as R.
  run_stage R Hres; merge_traces; [|stage_failed res..].
  pose proof (get_noise_sample_ran h self w1 (PyStr (tmp_name h w0 ++ ".mp3"))) as R.
  run_stage R Hres; merge_traces; [|stage_failed res..].
  pose proof (gen_noise_profile_ran h self w2 (PyStr (tmp_name h w1 ++ ".mp3"))) as R.
  run_stage R Hres; merge_traces; [|stage_failed res..].
  pose proof (remove_noise_ran h self w3 (PyStr (tmp_name h w0 ++ ".mp3"))
                (PyStr (tmp_name h w2 ++ ".prof")) noise_sens) as R.
  run_stage R Hres; merge_traces; [|stage_failed res..].
  pose proof (merge_ran h self w4 (PyStr (tmp_name h w ++ ".mp4"))
                (PyStr (tmp_name h w3 ++ ".mp3"))) as R.
  run_stage R Hres; merge_traces; [|stage_failed res..].
  right.
  exists (tmp_name h w), (tmp_name h w0), (tmp_name h w1), (tmp_name h w2),
         (tmp_name h w3), w5.
  split; [|split; [exact Hres|repeat constructor; by eexists]].
  match goal with H : trace w5 = _ |- _ => exact H end.
Qed.
End CleanRun.

Section IncrvolRun.
Variables (h : Host) (self : Sox) (factor : pyval) (w : World).

(** Either a process of the run returned a non-zero status, or the four
    stages ran in order and the run continued with the cleanup loop. *)
Lemma incrvol_run_cases :
  (exists l, trace (incrvol h self factor w).2 = (trace w ++ l)%list
             /\ (exists k st, k < 4 /\ st <> 0%Z
                              /\ statuses l = (replicate k 0%Z ++ [st])%list)
             /\ exists e, (incrvol h self factor w).1 = Raise e)
  \/ exists (n1 n2 n3 : string) (w4 : World),
       let v := n1 ++ ".mp4" in
       let a := n2 ++ ".mp3" in
       let b := n3 ++ ".mp3" in
       trace w4 =
         (trace w ++
          [EvTemp n1;
           EvSystem ("ffmpeg -y -i " ++ str h (infile self)
                     ++ " -an -vcodec copy " ++ v) 0;
           EvTemp n2;
           EvSystem ("ffmpeg -y -i " ++ str h (infile self)
                     ++ " -acodec copy -vn " ++ a) 0;
           EvTemp n3;
           EvSystem ("sox -v " ++ str h factor ++ " " ++ a ++ " " ++ b) 0;
           EvSystem ("ffmpeg -y -i " ++ v ++ " -i " ++ b
                     ++ " -vcodec copy -acodec copy " ++ str h (outfile self)) 0])%list
       /\ incrvol h self factor w = for_each (map PyStr [v; a; b]) os_unlink w4
       /\ Forall (fun n => exists w0, n = tmp_name h w0) [n1; n2; n3].
Proof.
  set (res := incrvol h self factor w).
  assert (Hres : res = incrvol h self factor w) by done. clearbody res.
  unfold incrvol in Hres.
  pose proof (extract_video_ran h self w) as R.
  run_stage R Hres; [|stage_failed res..].
  pose proof (extract_audio_ran h self w0) as R.
  run_stage R Hres; merge_traces; [|stage_failed res..].
  pose proof (increase_volume_ran h self w1 (PyStr (tmp_name h w0 ++ ".mp3")) factor) as R.
  run_stage R Hres; merge_traces; [|stage_failed res..].
  pose proof (merge_ran h self w2 (PyStr (tmp_name h w ++ ".mp4"))
                (PyStr (tmp_name h w1 ++ ".mp3"))) as R.
  run_stage R Hres; merge_traces; [|stage_failed res..].
  right.
  exists (tmp_name h w), (tmp_name h w0), (tmp_name h w1), w3.
  split; [|split; [exact Hres|repeat constructor; by eexists]].
  match goal with H : trace w3 = _ |- _ => exact H end.
Qed.
End IncrvolRun.

(** ** The two pipelines when every process returns 0 *)

(** C1 (as amended). On a run of [clean] in which every process returned 0,
    the six stages ran in this order, each after the allocation of its temp
    name: video-only extraction, audio-only extraction, noise sample (from
    00:00:00 for 00:00:01 of the audio-only file), noise profile of the
    sample, noise reduction of the audio-only file with the profile and
    [noise_sens], remux of the video-only file and the cleaned audio into
    the output path. The cleanup loop then removes the five intermediates
    in order; it returns [None] with all five gone, unless one of them is
    missing at its turn, where it stops with [FileNotFoundError] for it. *)
Theorem clean_six_stages_then_cleanup (h : Host) (self : Sox) (w : World) :
  Forall (fun st => st = 0%Z) (statuses (since w (clean h self w).2)) ->
  exists n1 n2 n3 n4 n5 : string,
    let v := n1 ++ ".mp4" in
    let a := n2 ++ ".mp3" in
    let s := n3 ++ ".mp3" in
    let p := n4 ++ ".prof" in
    let c := n5 ++ ".mp3" in
    exists k : nat,
      since w (clean h self w).2 =
        ([EvTemp n1;
          EvSystem ("ffmpeg -y -i " ++ str h (infile self)
                    ++ " -an -vcodec copy " ++ v) 0;
          EvTemp n2;
          EvSystem ("ffmpeg -y -i " ++ str h (infile self)
                    ++ " -acodec copy -vn " ++ a) 0;
          EvTemp n3;
          EvSystem ("ffmpeg -y -i " ++ a
                    ++ " -acodec copy -ss 00:00:00 -t 00:00:01 " ++ s) 0;
          EvTemp n4;
          EvSystem ("sox " ++ s ++ " -n noiseprof " ++ p) 0;
          EvTemp n5;
          EvSystem ("sox " ++ a ++ " " ++ c ++ " noisered " ++ p ++ " "
                    ++ str h noise_sens) 0;
          EvSystem ("ffmpeg -y -i " ++ v ++ " -i " ++ c
                    ++ " -vcodec copy -acodec copy " ++ str h (outfile self)) 0]
         ++ map EvUnlink (take k [v; a; s; p; c]))%list
      /\ ((clean h self w).1 = Ok tt /\ k = 5
           /\ (forall f, f ∈ [v; a; s; p; c] -> f ∉ files (clean h self w).2)
          \/ exists f, [v; a; s; p; c] !! k = Some f
                       /\ (f ∉ files (clean h self w).2)
                       /\ (clean h self w).1 = Raise (FileNotFoundError f)).
Proof.
  intros Hzero.
  destruct (clean_run_cases h self w) as [(l & Hl & (k & st & _ & Hst & Hsts) & _)|Hrun].
  { exfalso. apply (not_all_zero k st _ Hst Hsts).
    by rewrite (since_trace _ _ _ Hl) in Hzero. }
  destruct Hrun as (n1 & n2 & n3 & n4 & n5 & w6 & Ht & Hres & _).
  exists n1, n2, n3, n4, n5. cbn zeta in *.
  destruct (unlink_loop_run
              [n1 ++ ".mp4"; n2 ++ ".mp3"; n3 ++ ".mp3"; n4 ++ ".prof"; n5 ++ ".mp3"] w6)
    as (k & Hk & Hfs & Hend).
  rewrite <- Hres in Hk, Hfs, Hend.
  exists k. split.
  - apply since_trace. rewrite Hk, Ht. by rewrite <- app_assoc.
  - destruct Hend as [[Hok ->]|(f & Hf & Hmiss & Hr)].
    + left. repeat split; [done|]. intros f Hf. rewrite Hfs.
      apply not_elem_of_difference. right. by apply elem_of_list_to_set.
    + right. by exists f.
Qed.

(** C4 (as amended). On a run of [incrvol] in which every process returned
    0, the four stages ran in this order: video-only extraction, audio-only
    extraction, volume scaling of the audio-only file by [factor], remux of
    the video-only file and the louder audio into the output path. The
    cleanup loop then removes the three intermediates in order; it returns
    [None] with all three gone, unless one of them is missing at its turn,
    where it stops with [FileNotFoundError] for it. *)
Theorem incrvol_four_stages_then_cleanup
    (h : Host) (self : Sox) (factor : pyval) (w : World) :
  Forall (fun st => st = 0%Z) (statuses (since w (incrvol h self factor w).2)) ->
  exists n1 n2 n3 : string,
    let v := n1 ++ ".mp4" in
    let a := n2 ++ ".mp3" in
    let b := n3 ++ ".mp3" in
    exists k : nat,
      since w (incrvol h self factor w).2 =
        ([EvTemp n1;
          EvSystem ("ffmpeg -y -i " ++ str h (infile self)
                    ++ " -an -vcodec copy " ++ v) 0;
          EvTemp n2;
          EvSystem ("ffmpeg -y -i " ++ str h (infile self)
                    ++ " -acodec copy -vn " ++ a) 0;
          EvTemp n3;
          EvSystem ("sox -v " ++ str h factor ++ " " ++ a ++ " " ++ b) 0;
          EvSystem ("ffmpeg -y -i " ++ v ++ " -i " ++ b
                    ++ " -vcodec copy -acodec copy " ++ str h (outfile self)) 0]
         ++ map EvUnlink (take k [v; a; b]))%list
      /\ ((incrvol h self factor w).1 = Ok tt /\ k = 3
           /\ (forall f, f ∈ [v; a; b] -> f ∉ files (incrvol h self factor w).2)
          \/ exists f, [v; a; b] !! k = Some f
                       /\ (f ∉ files (incrvol h self factor w).2)
                       /\ (incrvol h self factor w).1 = Raise (FileNotFoundError f)).
Proof.
  intros Hzero.
  destruct (incrvol_run_cases h self factor w)
    as [(l & Hl & (k & st & _ & Hst & Hsts) & _)|Hrun].
  { exfalso. apply (not_all_zero k st _ Hst Hsts).
    by rewrite (since_trace _ _ _ Hl) in Hzero. }
  destruct Hrun as (n1 & n2 & n3 & w4 & Ht & Hres & _).
  exists n1, n2, n3. cbn zeta in *.
  destruct (unlink_loop_run [n1 ++ ".mp4"; n2 ++ ".mp3"; n3 ++ ".mp3"] w4)
    as (k & Hk & Hfs & Hend).
  rewrite <- Hres in Hk, Hfs, Hend.
  exists k. split.
  - apply since_trace. rewrite Hk, Ht. by rewrite <- app_assoc.
  - destruct Hend as [[Hok ->]|(f & Hf & Hmiss & Hr)].
    + left. repeat split; [done|]. intros f Hf. rewrite Hfs.
      apply not_elem_of_difference. right. by apply elem_of_list_to_set.
    + right. by exists f.
Qed.

(** ** Runs on the concrete hosts *)

(** [prog -c input.mp4 clean.mp4] with working tools. *)
Lemma clean_studio_run :
  clean (studio never false) job_clean disk =
    (Ok tt,
     mkWorld (list_to_set ["input.mp4"; "clean.mp4"; "/tmp/tmp0"; "/tmp/tmp2";
                           "/tmp/tmp4"; "/tmp/tmp6"; "/tmp/tmp8"])
             EmptyString
             [EvTemp "/tmp/tmp0";
              EvSystem "ffmpeg -y -i input.mp4 -an -vcodec copy /tmp/tmp0.mp4" 0;
              EvTemp "/tmp/tmp2";
              EvSystem "ffmpeg -y -i input.mp4 -acodec copy -vn /tmp/tmp2.mp3" 0;
              EvTemp "/tmp/tmp4";
              EvSystem "ffmpeg -y -i /tmp/tmp2.mp3 -acodec copy -ss 00:00:00 -t 00:00:01 /tmp/tmp4.mp3" 0;
              EvTemp "/tmp/tmp6";
              EvSystem "sox /tmp/tmp4.mp3 -n noiseprof /tmp/tmp6.prof" 0;
              EvTemp "/tmp/tmp8";
              EvSystem "sox /tmp/tmp2.mp3 /tmp/tmp8.mp3 noisered /tmp/tmp6.prof 0.21" 0;
              EvSystem "ffmpeg -y -i /tmp/tmp0.mp4 -i /tmp/tmp8.mp3 -vcodec copy -acodec copy clean.mp4" 0;
              EvUnlink "/tmp/tmp0.mp4"; EvUnlink "/tmp/tmp2.mp3";
              EvUnlink "/tmp/tmp4.mp3"; EvUnlink "/tmp/tmp6.prof";
              EvUnlink "/tmp/tmp8.mp3"]).
Proof. vm_compute. reflexivity. Qed.

(** [prog -v 2.0 input.mp4 louder.mp4] with working tools. *)
Lemma incrvol_studio_run :
  incrvol (studio never false) job_louder (PyFloat 2) disk =
    (Ok tt,
     mkWorld (list_to_set ["input.mp4"; "louder.mp4"; "/tmp/tmp0"; "/tmp/tmp2";
                           "/tmp/tmp4"])
             EmptyString
             [EvTemp "/tmp/tmp0";
              EvSystem "ffmpeg -y -i input.mp4 -an -vcodec copy /tmp/tmp0.mp4" 0;
              EvTemp "/tmp/tmp2";
              EvSystem "ffmpeg -y -i input.mp4 -acodec copy -vn /tmp/tmp2.mp3" 0;
              EvTemp "/tmp/tmp4";
              EvSystem "sox -v 2.0 /tmp/tmp2.mp3 /tmp/tmp4.mp3" 0;
              EvSystem "ffmpeg -y -i /tmp/tmp0.mp4 -i /tmp/tmp4.mp3 -vcodec copy -acodec copy louder.mp4" 0;
              EvUnlink "/tmp/tmp0.mp4"; EvUnlink "/tmp/tmp2.mp3";
              EvUnlink "/tmp/tmp4.mp3"]).
Proof. vm_compute. reflexivity. Qed.

(** The clean theorem on [prog -c input.mp4 clean.mp4] with working tools. *)
Lemma clean_six_stages_then_cleanup_witness :
  Forall (fun st => st = 0%Z) (statuses (since disk (clean (studio never false) job_clean disk).2))
  /\
    exists n1 n2 n3 n4 n5 : string,
    let v := n1 ++ ".mp4" in
    let a := n2 ++ ".mp3" in
    let s := n3 ++ ".mp3" in
    let p := n4 ++ ".prof" in
    let c := n5 ++ ".mp3" in
    exists k : nat,
      since disk (clean (studio never false) job_clean disk).2 =
        ([EvTemp n1;
          EvSystem ("ffmpeg -y -i " ++ str (studio never false) (infile job_clean)
                    ++ " -an -vcodec copy " ++ v) 0;
          EvTemp n2;
          EvSystem ("ffmpeg -y -i " ++ str (studio never false) (infile job_clean)
                    ++ " -acodec copy -vn " ++ a) 0;
          EvTemp n3;
          EvSystem ("ffmpeg -y -i " ++ a
                    ++ " -acodec copy -ss 00:00:00 -t 00:00:01 " ++ s) 0;
          EvTemp n4;
          EvSystem ("sox " ++ s ++ " -n noiseprof " ++ p) 0;
          EvTemp n5;
          EvSystem ("sox " ++ a ++ " " ++ c ++ " noisered " ++ p ++ " "
                    ++ str (studio never false) noise_sens) 0;
          EvSystem ("ffmpeg -y -i " ++ v ++ " -i " ++ c
                    ++ " -vcodec copy -acodec copy " ++ str (studio never false) (outfile job_clean)) 0]
         ++ map EvUnlink (take k [v; a; s; p; c]))%list
      /\ ((clean (studio never false) job_clean disk).1 = Ok tt /\ k = 5
           /\ (forall f, f ∈ [v; a; s; p; c] -> f ∉ files (clean (studio never false) job_clean disk).2)
          \/ exists f, [v; a; s; p; c] !! k = Some f
                       /\ (f ∉ files (clean (studio never false) job_clean disk).2)
                       /\ (clean (studio never false) job_clean disk).1 = Raise (FileNotFoundError f)).
Proof.
  assert (Hzero : Forall (fun st => st = 0%Z) (statuses (since disk (clean (studio never false) job_clean disk).2))).
  { vm_compute. repeat constructor. }
  split; [exact Hzero|].
  exact (clean_six_stages_then_cleanup (studio never false) job_clean disk Hzero).
Defined.

(** The boost theorem on [prog -v 2.0 input.mp4 louder.mp4] with working
    tools. *)
Lemma incrvol_four_stages_then_cleanup_witness :
  Forall (fun st => st = 0%Z) (statuses (since disk (incrvol (studio never false) job_louder (PyFloat 2) disk).2))
  /\
    exists n1 n2 n3 : string,
    let v := n1 ++ ".mp4" in
    let a := n2 ++ ".mp3" in
    let b := n3 ++ ".mp3" in
    exists k : nat,
      since disk (incrvol (studio never false) job_louder (PyFloat 2) disk).2 =
        ([EvTemp n1;
          EvSystem ("ffmpeg -y -i " ++ str (studio never false) (infile job_louder)
                    ++ " -an -vcodec copy " ++ v) 0;
          EvTemp n2;
          EvSystem ("ffmpeg -y -i " ++ str (studio never false) (infile job_louder)
                    ++ " -acodec copy -vn " ++ a) 0;
          EvTemp n3;
          EvSystem ("sox -v " ++ str (studio never false) (PyFloat 2) ++ " " ++ a ++ " " ++ b) 0;
          EvSystem ("ffmpeg -y -i " ++ v ++ " -i " ++ b
                    ++ " -vcodec copy -acodec copy " ++ str (studio never false) (outfile job_louder)) 0]
         ++ map EvUnlink (take k [v; a; b]))%list
      /\ ((incrvol (studio never false) job_louder (PyFloat 2) disk).1 = Ok tt /\ k = 3
           /\ (forall f, f ∈ [v; a; b] -> f ∉ files (incrvol (studio never false) job_louder (PyFloat 2) disk).2)
          \/ exists f, [v; a; b] !! k = Some f
                       /\ (f ∉ files (incrvol (studio never false) job_louder (PyFloat 2) disk).2)
                       /\ (incrvol (studio never false) job_louder (PyFloat 2) disk).1 = Raise (FileNotFoundError f)).
Proof.
  assert (Hzero : Forall (fun st => st = 0%Z) (statuses (since disk (incrvol (studio never false) job_louder (PyFloat 2) disk).2))).
  { vm_compute. repeat constructor. }
  split; [exact Hzero|].
  exact (incrvol_four_stages_then_cleanup (studio never false) job_louder
           (PyFloat 2) disk Hzero).
Defined.

(** C1 as stated fails where the tools return 0 without writing their
    output (stubs in place of the tools): every process of the run returns
    0, the six stages run, and the run ends with [FileNotFoundError] for the
    video-only file without having removed anything. *)
Lemma clean_stub_all_zero_yet_raises :
  Forall (fun st => st = 0%Z) (statuses (since disk (clean stub_host job_clean disk).2))
  /\ length (statuses (since disk (clean stub_host job_clean disk).2)) = 6
  /\ (clean stub_host job_clean disk).1 = Raise (FileNotFoundError "/tmp/tmp0.mp4")
  /\ unlinked (since disk (clean stub_host job_clean disk).2) = [].
Proof. vm_compute. repeat split; repeat constructor. Qed.

(** C4 as stated fails in the same way. *)
Lemma incrvol_stub_all_zero_yet_raises :
  Forall (fun st => st = 0%Z)
         (statuses (since disk (incrvol stub_host job_louder (PyFloat 2) disk).2))
  /\ length (statuses (since disk (incrvol stub_host job_louder (PyFloat 2) disk).2)) = 4
  /\ (incrvol stub_host job_louder (PyFloat 2) disk).1
     = Raise (FileNotFoundError "/tmp/tmp0.mp4")
  /\ unlinked (since disk (incrvol stub_host job_louder (PyFloat 2) disk).2) = [].
Proof. vm_compute. repeat split; repeat constructor. Qed.

(** ** What a computation adds to the log *)

Section Emits.
Context {A B : Type}.
Variable P : event -> Prop.

Lemma emits_ret (Q : A -> Prop) (a : A) : Q a -> emits P Q (ret a).
Proof.
  intros Ha w. exists []. cbn. rewrite app_nil_r.
  split; [done|]. split; [constructor|]. by intros ? [= <-].
Qed.

Lemma emits_raise (Q : A -> Prop) (e : exn) : emits P Q (raise e).
Proof.
  intros w. exists []. cbn. rewrite app_nil_r.
  split; [done|]. split; [constructor|]. by intros ? [=].
Qed.

Lemma emits_bind (Q1 : A -> Prop) (Q2 : B -> Prop) (m : M A) (k : A -> M B) :
  emits P Q1 m -> (forall a, Q1 a -> emits P Q2 (k a)) -> emits P Q2 (bind m k).
Proof.
  intros Hm Hk w. destruct (Hm w) as (l1 & Ht1 & HP1 & HQ1).
  unfold bind. destruct (m w) as [[a|e] w1]; cbn [fst snd] in *.
  - destruct (Hk a (HQ1 a eq_refl) w1) as (l2 & Ht2 & HP2 & HQ2).
    exists (l1 ++ l2)%list. rewrite Ht2, Ht1, <- app_assoc.
    split; [done|]. split; [by apply Forall_app|done].
  - exists l1. split; [done|]. split; [done|]. by intros ? [=].
Qed.

Lemma emits_weaken (Q Q' : A -> Prop) (m : M A) :
  emits P Q m -> (forall a, Q a -> Q' a) -> emits P Q' m.
Proof.
  intros Hm HQ w. destruct (Hm w) as (l & Ht & HP & Hq).
  exists l. split; [done|]. split; [done|]. intros a Ha. by apply HQ, Hq.
Qed.
End Emits.

Section EmitsRuntime.
Variables (h : Host) (P : event -> Prop).

Lemma emits_os_system (cmd : string) :
  (forall st, P (EvSystem cmd st)) -> emits P (fun _ => True) (os_system h cmd).
Proof.
  intros HP w. unfold os_system.
  destruct (run_process h cmd w) as [st fs]. exists [EvSystem cmd st].
  cbn. split; [done|]. split; [|done]. constructor; [apply HP|constructor].
Qed.

Lemma emits_os_unlink (v : pyval) :
  (forall p, v = PyStr p -> P (EvUnlink p)) -> emits P (fun _ => True) (os_unlink v).
Proof.
  intros HP w. unfold os_unlink.
  destruct v as [|p| |];
    try (exists []; cbn; rewrite app_nil_r;
         split; [done|]; split; [constructor|done]).
  destruct (decide (p ∈ files w)).
  - exists [EvUnlink p]. cbn. split; [done|]. split; [|done].
    constructor; [by apply HP|constructor].
  - exists []. cbn. rewrite app_nil_r.
    split; [done|]. split; [constructor|done].
Qed.

Lemma emits_NamedTemporaryFile :
  (forall n, P (EvTemp n)) ->
  emits P (fun n => exists w, n = tmp_name h w) (NamedTemporaryFile h).
Proof.
  intros HP w. unfold NamedTemporaryFile. exists [EvTemp (tmp_name h w)].
  cbn. split; [done|]. split; [constructor; [apply HP|constructor]|].
  intros a [= <-]. by exists w.
Qed.

Lemma emits_for_each {A} (xs : list A) (body : A -> M unit) :
  (forall x, x ∈ xs -> emits P (fun _ => True) (body x)) ->
  emits P (fun _ => True) (for_each xs body).
Proof.
  induction xs as [|x xs IH]; intros Hbody; cbn [for_each].
  - by apply emits_ret.
  - eapply emits_bind; [apply Hbody; by left|].
    intros _ _. apply IH. intros y Hy. apply Hbody. by right.
Qed.

Lemma emits_exec_shell_cmd_for_file (cmd : string) (out : pyval) :
  (forall st, P (EvSystem cmd st)) ->
  (forall p, out = PyStr p -> P (EvUnlink p)) ->
  emits P (fun v => v = out) (exec_shell_cmd_for_file h cmd out).
Proof.
  intros Hsys Hun. unfold exec_shell_cmd_for_file.
  eapply emits_bind; [by apply emits_os_system|].
  intros st _. destruct (st =? 0)%Z.
  - by apply emits_ret.
  - eapply emits_bind; [by apply emits_os_unlink|].
    intros _ _. apply emits_raise.
Qed.
End EmitsRuntime.

(** ** Which files the operations remove *)

Lemma elem_of_unlinked (p : string) (l : list event) :
  p ∈ unlinked l <-> EvUnlink p ∈ l.
Proof.
  induction l as [|e l IH]; cbn.
  - split; intros H; by apply elem_of_nil in H.
  - destruct e as [n|c st|q]; rewrite ?elem_of_cons, IH; [naive_solver..|].
    split; intros [H|H]; auto; left; congruence.
Qed.

Section Tidy.
Variables (h : Host) (self : Sox).

Lemma tidy_temp_stage (cmd_of : string -> string) (ext : string) :
  ext ∈ [".mp4"; ".mp3"; ".prof"] ->
  emits (tidy h self) (intermediate_path h)
    (bind (NamedTemporaryFile h)
          (fun name => exec_shell_cmd_for_file h (cmd_of name) (PyStr (name ++ ext)))).
Proof.
  intros Hext.
  eapply emits_bind; [apply emits_NamedTemporaryFile; by intros n p|].
  intros name [w0 ->].
  assert (Hi : intermediate h (tmp_name h w0 ++ ext)) by by exists w0, ext.
  eapply emits_weaken.
  - apply emits_exec_shell_cmd_for_file; [by intros st p|].
    intros p [= <-] q [= <-]. by left.
  - intros v ->. by eexists.
Qed.

Lemma tidy_extract_video :
  emits (tidy h self) (intermediate_path h) (extract_video h self).
Proof. apply (tidy_temp_stage _ ".mp4"). set_solver. Qed.

Lemma tidy_extract_audio :
  emits (tidy h self) (intermediate_path h) (extract_audio h self).
Proof. apply (tidy_temp_stage _ ".mp3"). set_solver. Qed.

Lemma tidy_get_noise_sample (audio : pyval) :
  emits (tidy h self) (intermediate_path h) (get_noise_sample h self audio).
Proof. apply (tidy_temp_stage _ ".mp3"). set_solver. Qed.

Lemma tidy_gen_noise_profile (sample : pyval) :
  emits (tidy h self) (intermediate_path h) (gen_noise_profile h self sample).
Proof. apply (tidy_temp_stage _ ".prof"). set_solver. Qed.

Lemma tidy_remove_noise (audio profile sensitivity : pyval) :
  emits (tidy h self) (intermediate_path h)
        (remove_noise h self audio profile sensitivity).
Proof. apply (tidy_temp_stage _ ".mp3"). set_solver. Qed.

Lemma tidy_increase_volume (audio factor : pyval) :
  emits (tidy h self) (intermediate_path h) (increase_volume h self audio factor).
Proof. apply (tidy_temp_stage _ ".mp3"). set_solver. Qed.

Lemma tidy_merge (video audio : pyval) :
  emits (tidy h self) (fun _ => True) (merge h self video audio).
Proof.
  eapply emits_weaken; [|done].
  apply emits_exec_shell_cmd_for_file; [by intros st p|].
  intros p Hp q [= <-]. by right.
Qed.

Lemma tidy_cleanup (vs : list pyval) :
  Forall (intermediate_path h) vs ->
  emits (tidy h self) (fun _ => True) (for_each vs os_unlink).
Proof.
  intros Hvs. apply emits_for_each. intros v Hv.
  apply emits_os_unlink. intros p -> q [= <-].
  rewrite Forall_forall in Hvs. destruct (Hvs _ Hv) as (p' & [= <-] & Hi).
  by left.
Qed.

Lemma tidy_clean : emits (tidy h self) (fun _ => True) (clean h self).
Proof.
  unfold clean.
  eapply emits_bind; [apply tidy_extract_video|]. intros v Hv.
  eapply emits_bind; [apply tidy_extract_audio|]. intros a Ha.
  eapply emits_bind; [apply tidy_get_noise_sample|]. intros s Hs.
  eapply emits_bind; [apply tidy_gen_noise_profile|]. intros p Hp.
  eapply emits_bind; [apply tidy_remove_noise|]. intros c Hc.
  eapply emits_bind; [apply tidy_merge|]. intros _ _.
  apply tidy_cleanup. by repeat constructor.
Qed.

Lemma tidy_incrvol (factor : pyval) :
  emits (tidy h self) (fun _ => True) (incrvol h self factor).
Proof.
  unfold incrvol.
  eapply emits_bind; [apply tidy_extract_video|]. intros v Hv.
  eapply emits_bind; [apply tidy_extract_audio|]. intros a Ha.
  eapply emits_bind; [apply tidy_increase_volume|]. intros b Hb.
  eapply emits_bind; [apply tidy_merge|]. intros _ _.
  apply tidy_cleanup. by repeat constructor.
Qed.

(** A tidy computation spares every file that is neither an intermediate
    nor at the output path. *)
Lemma tidy_spares {A} (Q : A -> Prop) (m : M A) (p : string) :
  emits (tidy h self) Q m ->
  outfile self <> PyStr p -> ~ intermediate h p -> spares p m.
Proof.
  intros Hm Hout Hint w. destruct (Hm w) as (l & Ht & HP & _).
  rewrite (since_trace _ _ _ Ht), elem_of_unlinked.
  intros Hin. rewrite Forall_forall in HP.
  destruct (HP _ Hin p eq_refl); contradiction.
Qed.
End Tidy.

(** ** A failed remux and the input file *)

(** A failed command goes on with [os.unlink] of its output and, when that
    succeeds, the bare [Exception]; an error of [os.unlink] takes its
    place. *)
Lemma exec_shell_cmd_for_file_failure (h : Host) (cmd : string) (out : pyval)
    (w : World) (st : Z) (fs : gset string) :
  run_process h cmd w = (st, fs) -> st <> 0%Z ->
  exec_shell_cmd_for_file h cmd out w =
    bind (os_unlink out) (fun _ => raise Exception)
         (mkWorld fs (stdout w) (trace w ++ [EvSystem cmd st])).
Proof.
  intros Hrun Hst. unfold exec_shell_cmd_for_file at 1, bind at 1, os_system.
  rewrite Hrun. by destruct (Z.eqb_spec st 0).
Qed.

(** C5 (as amended). (a) When the remux process returns a non-zero status,
    [os.unlink] is applied to the job's output path in the world the
    process left: when it succeeds the run ends with the bare [Exception]
    in the world without that path, and when it raises, its error is the
    one the run ends with. (b) For a job built with [overwrite=True] that
    path is the input path. (c) For a job built with [overwrite=False] the
    paths that the operations of the class unlink are intermediate paths
    (a temp name with [.mp4], [.mp3] or [.prof] appended) or the supplied
    output path, and no others: the input file is removed only under one of
    those names. *)
Theorem remux_failure_and_the_input_file (h : Host) (ip : string) (o : pyval) :
  (forall self video audio w st fs,
     let cmd := "ffmpeg -y -i " ++ str h video ++ " -i " ++ str h audio
                ++ " -vcodec copy -acodec copy " ++ str h (outfile self) in
     let w1 := mkWorld fs (stdout w) (trace w ++ [EvSystem cmd st]) in
     run_process h cmd w = (st, fs) -> st <> 0%Z ->
     (forall w2, os_unlink (outfile self) w1 = (Ok tt, w2) ->
                 merge h self video audio w = (Raise Exception, w2))
     /\ (forall e w2, os_unlink (outfile self) w1 = (Raise e, w2) ->
                      merge h self video audio w = (Raise e, w2)))
  /\ (forall video audio w st fs,
        let self := __init__ (PyStr ip) o true in
        let cmd := "ffmpeg -y -i " ++ str h video ++ " -i " ++ str h audio
                   ++ " -vcodec copy -acodec copy " ++ ip in
        let w1 := mkWorld fs (stdout w) (trace w ++ [EvSystem cmd st]) in
        run_process h cmd w = (st, fs) -> st <> 0%Z ->
        (forall w2, os_unlink (PyStr ip) w1 = (Ok tt, w2) ->
                    merge h self video audio w = (Raise Exception, w2))
        /\ (forall e w2, os_unlink (PyStr ip) w1 = (Raise e, w2) ->
                         merge h self video audio w = (Raise e, w2)))
  /\ (let self := __init__ (PyStr ip) o false in
      let P := fun p => intermediate h p \/ o = PyStr p in
      only_removes P (clean h self)
      /\ (forall factor, only_removes P (incrvol h self factor))
      /\ only_removes P (extract_video h self)
      /\ only_removes P (extract_audio h self)
      /\ (forall audio, only_removes P (get_noise_sample h self audio))
      /\ (forall sample, only_removes P (gen_noise_profile h self sample))
      /\ (forall audio profile sensitivity,
            only_removes P (remove_noise h self audio profile sensitivity))
      /\ (forall video audio, only_removes P (merge h self video audio))
      /\ (forall audio factor, only_removes P (increase_volume h self audio factor))).
Proof.
  assert (Ha : forall self video audio w st fs,
     let cmd := "ffmpeg -y -i " ++ str h video ++ " -i " ++ str h audio
                ++ " -vcodec copy -acodec copy " ++ str h (outfile self) in
     let w1 := mkWorld fs (stdout w) (trace w ++ [EvSystem cmd st]) in
     run_process h cmd w = (st, fs) -> st <> 0%Z ->
     (forall w2, os_unlink (outfile self) w1 = (Ok tt, w2) ->
                 merge h self video audio w = (Raise Exception, w2))
     /\ (forall e w2, os_unlink (outfile self) w1 = (Raise e, w2) ->
                      merge h self video audio w = (Raise e, w2))).
  { intros self video audio w st fs cmd w1 Hrun Hst.
    change (merge h self video audio w)
      with (exec_shell_cmd_for_file h cmd (outfile self) w).
    rewrite (exec_shell_cmd_for_file_failure h cmd (outfile self) w st fs Hrun Hst).
    fold w1. split.
    - intros w2 Hun. by rewrite (bind_Ok _ _ _ _ _ Hun).
    - intros e w2 Hun. by rewrite (bind_Raise _ _ _ _ _ Hun). }
  split; [exact Ha|]. split.
  - intros video audio w st fs self cmd w1.
    exact (Ha self video audio w st fs).
  - intros self P.
    assert (Hgen : forall (A : Type) (Q : A -> Prop) (m : M A),
              emits (tidy h self) Q m -> only_removes P m).
    { intros A Q m Hm w p Hin. destruct (Hm w) as (l & Ht & HP & _).
      rewrite (since_trace _ _ _ Ht), elem_of_unlinked in Hin.
      rewrite Forall_forall in HP. exact (HP _ Hin p eq_refl). }
    repeat split; intros;
      eauto using tidy_clean, tidy_incrvol, tidy_extract_video,
        tidy_extract_audio, tidy_get_noise_sample, tidy_gen_noise_profile,
        tidy_remove_noise, tidy_merge, tidy_increase_volume.
Qed.

(** The theorem on a host whose remux fails: with [overwrite=True] the
    unlink is of [input.mp4], and it succeeds there; with [overwrite=False]
    and [clean.mp4] as the output path, [clean] removes intermediate paths
    and [clean.mp4] only. *)
Lemma remux_failure_and_the_input_file_witness :
  merge (studio is_remux false)
        (__init__ (PyStr "input.mp4") (PyStr "clean.mp4") true)
        (PyStr "/tmp/v.mp4") (PyStr "/tmp/a.mp3") disk
  = (Raise Exception,
     mkWorld (files disk ∖ {["input.mp4"]}) EmptyString
       [EvSystem "ffmpeg -y -i /tmp/v.mp4 -i /tmp/a.mp3 -vcodec copy -acodec copy input.mp4"
                 256;
        EvUnlink "input.mp4"])
  /\ only_removes
       (fun p => intermediate (studio is_remux false) p
                 \/ PyStr "clean.mp4" = PyStr p)
       (clean (studio is_remux false)
              (__init__ (PyStr "input.mp4") (PyStr "clean.mp4") false)).
Proof.
  destruct (remux_failure_and_the_input_file (studio is_remux false)
              "input.mp4" (PyStr "clean.mp4")) as (_ & Hb & Hc).
  split.
  - pose proof (Hb (PyStr "/tmp/v.mp4") (PyStr "/tmp/a.mp3") disk 256%Z (files disk))
      as H.
    cbv zeta in H.
    assert (Hrun : run_process (studio is_remux false)
              ("ffmpeg -y -i " ++ str (studio is_remux false) (PyStr "/tmp/v.mp4")
               ++ " -i " ++ str (studio is_remux false) (PyStr "/tmp/a.mp3")
               ++ " -vcodec copy -acodec copy " ++ "input.mp4") disk
              = (256%Z, files disk)) by (vm_compute; reflexivity).
    assert (Hst : 256%Z <> 0%Z) by discriminate.
    exact (proj1 (H Hrun Hst) _ ltac:(vm_compute; reflexivity)).
  - exact (proj1 Hc).
Defined.

(** C5 as stated fails for a job built with [overwrite=False] when the
    supplied output path is the input path, as in
    [prog -c input.mp4 input.mp4]: a failed remux removes the input file. *)
Lemma overwrite_false_yet_input_unlinked :
  let res := main (studio is_remux false)
                  ["sox.py"; "-c"; "input.mp4"; "input.mp4"] disk in
  res.1 = Raise Exception
  /\ unlinked (since disk res.2) = ["input.mp4"]
  /\ "input.mp4" ∈ files disk
  /\ "input.mp4" ∉ files res.2.
Proof.
  cbv zeta. split; [vm_compute; reflexivity|]. split; [vm_compute; reflexivity|].
  split; apply (bool_decide_unpack _); vm_compute; exact I.
Qed.

(** The input can also go under an intermediate's name: when the input
    path is what the first temp name becomes with [.mp4] appended, the
    video-only stage writes over the input and the cleanup of a successful
    run removes it. *)
Lemma input_named_like_an_intermediate_is_unlinked :
  let self := __init__ (PyStr "/tmp/tmp0.mp4") (PyStr "clean.mp4") false in
  let res := clean (studio never false) self (world_of ["/tmp/tmp0.mp4"]) in
  res.1 = Ok tt
  /\ unlinked (since (world_of ["/tmp/tmp0.mp4"]) res.2)
     = ["/tmp/tmp0.mp4"; "/tmp/tmp2.mp3"; "/tmp/tmp4.mp3"; "/tmp/tmp6.prof";
        "/tmp/tmp8.mp3"].
Proof. cbv zeta. split; vm_compute; reflexivity. Qed.

(** ** The end of a command, by its exit status *)

(** Status 0: the stage returns the output path it was given; nothing is
    removed. *)
Lemma exec_shell_cmd_for_file_success (h : Host) (cmd : string) (out : pyval)
    (w : World) (fs : gset string) :
  run_process h cmd w = (0%Z, fs) ->
  exec_shell_cmd_for_file h cmd out w =
    (Ok out, mkWorld fs (stdout w) (trace w ++ [EvSystem cmd 0%Z])).
Proof. intros Hrun. by rewrite exec_shell_cmd_for_file_eq, Hrun. Qed.

(** Non-zero status with the output file on disk: the file is removed and
    the bare [Exception] is raised. *)
Lemma exec_shell_cmd_for_file_failure_partial (h : Host) (cmd p : string)
    (w : World) (st : Z) (fs : gset string) :
  run_process h cmd w = (st, fs) -> st <> 0%Z -> p ∈ fs ->
  exec_shell_cmd_for_file h cmd (PyStr p) w =
    (Raise Exception,
     mkWorld (fs ∖ {[p]}) (stdout w) (trace w ++ [EvSystem cmd st; EvUnlink p])).
Proof.
  intros Hrun Hst Hin. rewrite exec_shell_cmd_for_file_eq, Hrun. cbn.
  destruct (Z.eqb_spec st 0) as [|_]; [done|].
  by destruct (decide (p ∈ fs)).
Qed.

(** Non-zero status and no output file on disk: [os.unlink] raises
    [FileNotFoundError], which carries the path; [raise Exception] is not
    reached. *)
Lemma exec_shell_cmd_for_file_failure_missing (h : Host) (cmd p : string)
    (w : World) (st : Z) (fs : gset string) :
  run_process h cmd w = (st, fs) -> st <> 0%Z -> p ∉ fs ->
  exec_shell_cmd_for_file h cmd (PyStr p) w =
    (Raise (FileNotFoundError p),
     mkWorld fs (stdout w) (trace w ++ [EvSystem cmd st])).
Proof.
  intros Hrun Hst Hin. rewrite exec_shell_cmd_for_file_eq, Hrun. cbn.
  destruct (Z.eqb_spec st 0) as [|_]; [done|].
  by destruct (decide (p ∈ fs)).
Qed.

(** X1. A non-zero status ends the pipeline: the statuses of a run of
    [clean] are six zeros, or fewer zeros followed by one non-zero status,
    the last of the run, which then ends with an exception. *)
Lemma clean_stops_at_first_failure (h : Host) (self : Sox) (w : World) :
  statuses (since w (clean h self w).2) = replicate 6 0%Z
  \/ exists k st, k < 6 /\ st <> 0%Z
       /\ statuses (since w (clean h self w).2) = (replicate k 0%Z ++ [st])%list
       /\ exists e, (clean h self w).1 = Raise e.
Proof.
  destruct (clean_run_cases h self w)
    as [(l & Hl & (k & st & Hk & Hst & Hsts) & He)
       |(n1 & n2 & n3 & n4 & n5 & w6 & Ht & Hres & _)].
  - right. exists k, st. by rewrite (since_trace _ _ _ Hl).
  - left. cbn zeta in *.
    destruct (unlink_loop_run
                [n1 ++ ".mp4"; n2 ++ ".mp3"; n3 ++ ".mp3"; n4 ++ ".prof"; n5 ++ ".mp3"] w6)
      as (k & Hk & _).
    rewrite <- Hres in Hk. rewrite Ht, <- app_assoc in Hk.
    rewrite (since_trace _ _ _ Hk), statuses_app. cbn.
    clear. by induction (take k _) as [|? ? IH].
Qed.

(** X2. The statuses of a run of [incrvol] are four zeros, or fewer zeros
    followed by one non-zero status, the last of the run, which then ends
    with an exception. *)
Lemma incrvol_stops_at_first_failure (h : Host) (self : Sox) (factor : pyval)
    (w : World) :
  statuses (since w (incrvol h self factor w).2) = replicate 4 0%Z
  \/ exists k st, k < 4 /\ st <> 0%Z
       /\ statuses (since w (incrvol h self factor w).2)
          = (replicate k 0%Z ++ [st])%list
       /\ exists e, (incrvol h self factor w).1 = Raise e.
Proof.
  destruct (incrvol_run_cases h self factor w)
    as [(l & Hl & (k & st & Hk & Hst & Hsts) & He)
       |(n1 & n2 & n3 & w4 & Ht & Hres & _)].
  - right. exists k, st. by rewrite (since_trace _ _ _ Hl).
  - left. cbn zeta in *.
    destruct (unlink_loop_run [n1 ++ ".mp4"; n2 ++ ".mp3"; n3 ++ ".mp3"] w4)
      as (k & Hk & _).
    rewrite <- Hres in Hk. rewrite Ht, <- app_assoc in Hk.
    rewrite (since_trace _ _ _ Hk), statuses_app. cbn.
    clear. by induction (take k _) as [|? ? IH].
Qed.

(** C2, where the code departs from it. [prog -c input.mp4 clean.mp4] with an
    [ffmpeg] that fails (status 256, exit code 1) before it has created its
    output file: the first stage has no partial output to delete,
    [os.unlink] raises [FileNotFoundError] with the path of the missing
    file, and the bare [Exception] is never raised. No later stage runs. *)
Theorem failed_stage_without_output_raises_FileNotFoundError :
  let res := clean (studio always false) job_clean disk in
  res.1 = Raise (FileNotFoundError "/tmp/tmp0.mp4")
  /\ since disk res.2 =
       [EvTemp "/tmp/tmp0";
        EvSystem "ffmpeg -y -i input.mp4 -an -vcodec copy /tmp/tmp0.mp4" 256]
  /\ exit_status res.1 = 1%Z.
Proof. cbv zeta. repeat split; vm_compute; reflexivity. Qed.

(** The same failure when the tool leaves a partial output behind: here the
    code does what C2 says. *)
Lemma failed_stage_with_partial_output_raises_Exception :
  let res := clean (studio always true) job_clean disk in
  res.1 = Raise Exception
  /\ since disk res.2 =
       [EvTemp "/tmp/tmp0";
        EvSystem "ffmpeg -y -i input.mp4 -an -vcodec copy /tmp/tmp0.mp4" 256;
        EvUnlink "/tmp/tmp0.mp4"]
  /\ files res.2 = list_to_set ["input.mp4"; "/tmp/tmp0"].
Proof. cbv zeta. repeat split; vm_compute; reflexivity. Qed.

(** ** Temp files left behind *)

Lemma string_length_app (a b : string) :
  String.length (a ++ b) = String.length a + String.length b.
Proof. induction a as [|c a IH]; simpl; [done|]. by rewrite IH. Qed.

Lemma temps_app (l1 l2 : list event) :
  temps (l1 ++ l2) = (temps l1 ++ temps l2)%list.
Proof.
  induction l1 as [|e l1 IH]; [done|].
  destruct e; cbn; by rewrite IH.
Qed.

Lemma temps_map_EvUnlink (ps : list string) : temps (map EvUnlink ps) = [].
Proof. by induction ps. Qed.

(** A name of the allocator is not the path of an intermediate file, when
    all names have one length: the path is longer by its extension. *)
Lemma tmp_name_not_intermediate (h : Host) (w : World) :
  fixed_length_names h -> ~ intermediate h (tmp_name h w).
Proof.
  intros Hlen (w0 & ext & Hext & Heq).
  apply (f_equal String.length) in Heq.
  rewrite string_length_app, (Hlen w w0) in Heq.
  repeat (apply elem_of_cons in Hext as [->|Hext]; [cbn in Heq; lia|]).
  by apply elem_of_nil in Hext.
Qed.

(** X5. The name a temp file was created under is never the path that the
    cleanup removes: on a host whose temp names have one length, a run of
    [clean] that returns has created five temp files and removed none of
    them. *)
Lemma clean_never_removes_its_temp_files (h : Host) (self : Sox) (w : World) :
  fixed_length_names h ->
  (clean h self w).1 = Ok tt ->
  length (temps (since w (clean h self w).2)) = 5
  /\ forall n, n ∈ temps (since w (clean h self w).2) ->
               n ∉ unlinked (since w (clean h self w).2).
Proof.
  intros Hlen Hok.
  destruct (clean_run_cases h self w)
    as [(l & _ & _ & e & He)
       |(n1 & n2 & n3 & n4 & n5 & w6 & Ht & Hres & Hnames)]; [congruence|].
  cbn zeta in *.
  destruct (unlink_loop_run
              [n1 ++ ".mp4"; n2 ++ ".mp3"; n3 ++ ".mp3"; n4 ++ ".prof"; n5 ++ ".mp3"] w6)
    as (k & Hk & _ & Hend).
  rewrite <- Hres in Hk, Hend.
  destruct Hend as [[_ ->]|(f & _ & _ & Hr)]; [|congruence].
  rewrite Ht, <- app_assoc in Hk. rewrite (since_trace _ _ _ Hk).
  rewrite temps_app, unlinked_app, temps_map_EvUnlink, unlinked_map_EvUnlink.
  cbn. split; [done|]. intros n Hn Hun.
  assert (Hn' : exists w0, n = tmp_name h w0).
  { rewrite Forall_forall in Hnames. by apply Hnames. }
  destruct Hn' as [w0 ->].
  apply (tmp_name_not_intermediate h w0 Hlen).
  rewrite Forall_forall in Hnames.
  repeat (apply elem_of_cons in Hun as [->|Hun];
          [match goal with
           | |- intermediate _ (?m ++ ?ext) =>
               destruct (Hnames m) as [wm ->]; [set_solver|];
               exists wm, ext; split; [set_solver|done]
           end|]).
  by apply elem_of_nil in Hun.
Qed.

(** X6. On a host whose temp names have one length, a run of [incrvol] that
    returns has created three temp files and removed none of them. *)
Lemma incrvol_never_removes_its_temp_files (h : Host) (self : Sox)
    (factor : pyval) (w : World) :
  fixed_length_names h ->
  (incrvol h self factor w).1 = Ok tt ->
  length (temps (since w (incrvol h self factor w).2)) = 3
  /\ forall n, n ∈ temps (since w (incrvol h self factor w).2) ->
               n ∉ unlinked (since w (incrvol h self factor w).2).
Proof.
  intros Hlen Hok.
  destruct (incrvol_run_cases h self factor w)
    as [(l & _ & _ & e & He)
       |(n1 & n2 & n3 & w4 & Ht & Hres & Hnames)]; [congruence|].
  cbn zeta in *.
  destruct (unlink_loop_run [n1 ++ ".mp4"; n2 ++ ".mp3"; n3 ++ ".mp3"] w4)
    as (k & Hk & _ & Hend).
  rewrite <- Hres in Hk, Hend.
  destruct Hend as [[_ ->]|(f & _ & _ & Hr)]; [|congruence].
  rewrite Ht, <- app_assoc in Hk. rewrite (since_trace _ _ _ Hk).
  rewrite temps_app, unlinked_app, temps_map_EvUnlink, unlinked_map_EvUnlink.
  cbn. split; [done|]. intros n Hn Hun.
  assert (Hn' : exists w0, n = tmp_name h w0).
  { rewrite Forall_forall in Hnames. by apply Hnames. }
  destruct Hn' as [w0 ->].
  apply (tmp_name_not_intermediate h w0 Hlen).
  rewrite Forall_forall in Hnames.
  repeat (apply elem_of_cons in Hun as [->|Hun];
          [match goal with
           | |- intermediate _ (?m ++ ?ext) =>
               destruct (Hnames m) as [wm ->]; [set_solver|];
               exists wm, ext; split; [set_solver|done]
           end|]).
  by apply elem_of_nil in Hun.
Qed.

(** C3, where the code departs from it. [prog -c input.mp4 clean.mp4] and
    [prog -v 2.0 input.mp4 louder.mp4] with working tools: both runs return,
    the output file is written and the intermediates are removed, but the
    files that [NamedTemporaryFile(delete=False)] created to reserve the
    names (five for [clean], three for [incrvol]) are still on disk: only
    the suffixed paths were unlinked. *)
Theorem successful_runs_leave_temp_files :
  let c := clean (studio never false) job_clean disk in
  let v := incrvol (studio never false) job_louder (PyFloat 2) disk in
  c.1 = Ok tt
  /\ temps (since disk c.2)
     = ["/tmp/tmp0"; "/tmp/tmp2"; "/tmp/tmp4"; "/tmp/tmp6"; "/tmp/tmp8"]
  /\ unlinked (since disk c.2)
     = ["/tmp/tmp0.mp4"; "/tmp/tmp2.mp3"; "/tmp/tmp4.mp3"; "/tmp/tmp6.prof";
        "/tmp/tmp8.mp3"]
  /\ files c.2 ∖ files disk
     = list_to_set ["clean.mp4"; "/tmp/tmp0"; "/tmp/tmp2"; "/tmp/tmp4";
                    "/tmp/tmp6"; "/tmp/tmp8"]
  /\ v.1 = Ok tt
  /\ temps (since disk v.2) = ["/tmp/tmp0"; "/tmp/tmp2"; "/tmp/tmp4"]
  /\ unlinked (since disk v.2)
     = ["/tmp/tmp0.mp4"; "/tmp/tmp2.mp3"; "/tmp/tmp4.mp3"]
  /\ files v.2 ∖ files disk
     = list_to_set ["louder.mp4"; "/tmp/tmp0"; "/tmp/tmp2"; "/tmp/tmp4"].
Proof. cbv zeta. repeat split; vm_compute; reflexivity. Qed.

Lemma fresh_host_fresh : tmp_fresh fresh_host.
Proof. intros w. exact (is_fresh (files w)). Qed.

Lemma nine_host_fixed_length : fixed_length_names nine_host.
Proof. intros w1 w2. reflexivity. Qed.

(** The leak on a host with names of one length. *)
Lemma nine_host_clean_leaks :
  length (temps (since disk (clean nine_host job_clean disk).2)) = 5
  /\ forall n, n ∈ temps (since disk (clean nine_host job_clean disk).2) ->
               n ∉ unlinked (since disk (clean nine_host job_clean disk).2).
Proof.
  apply clean_never_removes_its_temp_files; [exact nine_host_fixed_length|].
  vm_compute. reflexivity.
Defined.

(** ** The constructor *)

(** C10. With [overwrite] the output path is the input path, whatever
    output path was supplied; without it the output path is the supplied
    one; the input path is stored as given in both cases. *)
Theorem init_output_path (i o : pyval) :
  outfile (__init__ i o true) = i
  /\ infile (__init__ i o true) = i
  /\ outfile (__init__ i o false) = o
  /\ infile (__init__ i o false) = i.
Proof. by repeat split. Qed.

(** ** The noise sample *)

(** What the stage does: [get_noise_sample] has the temp-file facility
    create a new file [n] (not on disk before, when the allocator is
    fresh), then runs one command, which copies the audio codec
    ([-acodec copy]) of [audio] from [00:00:00] for [noise_len], one second,
    into the other path [n.mp3]; when the process returns 0 it returns the
    path [n.mp3] and the stage has done nothing else. *)
Lemma noise_sample_is_first_second (h : Host) (self : Sox) (audio : pyval)
    (w : World) :
  tmp_fresh h ->
  Forall (fun st => st = 0%Z)
         (statuses (since w (get_noise_sample h self audio w).2)) ->
  let n := tmp_name h w in
  (n ∉ files w)
  /\ noise_len = "00:00:01"
  /\ since w (get_noise_sample h self audio w).2 =
       [EvTemp n;
        EvSystem ("ffmpeg -y -i " ++ str h audio
                  ++ " -acodec copy -ss 00:00:00 -t " ++ noise_len ++ " "
                  ++ n ++ ".mp3") 0]
  /\ (get_noise_sample h self audio w).1 = Ok (PyStr (n ++ ".mp3")).
Proof.
  intros Hfresh Hzero n. split; [apply Hfresh|]. split; [done|].
  pose proof (get_noise_sample_ran h self w audio) as R. fold n in R.
  destruct (get_noise_sample h self audio w) as [r w'].
  inversion R as [w1 Ht|st p w1 Hst Hp Ht _|st p w1 Hst Hp Ht _|st w1 Hst Hp Ht];
    subst; cbn [fst snd] in *;
    rewrite (since_trace _ _ _ Ht) in Hzero |- *; cbn in Hzero;
    try (inversion Hzero; congruence).
  done.
Qed.

Lemma noise_sample_is_first_second_witness :
  tmp_fresh fresh_host
  /\ Forall (fun st => st = 0%Z)
       (statuses (since disk
          (get_noise_sample fresh_host job_clean (PyStr "audio.mp3") disk).2))
  /\ (get_noise_sample fresh_host job_clean (PyStr "audio.mp3") disk).1
     = Ok (PyStr (tmp_name fresh_host disk ++ ".mp3")).
Proof.
  assert (Hzero : Forall (fun st => st = 0%Z)
       (statuses (since disk
          (get_noise_sample fresh_host job_clean (PyStr "audio.mp3") disk).2))).
  { vm_compute. repeat constructor. }
  split; [exact fresh_host_fresh|]. split; [exact Hzero|].
  exact (proj2 (proj2 (proj2
    (noise_sample_is_first_second fresh_host job_clean (PyStr "audio.mp3") disk
       fresh_host_fresh Hzero)))).
Defined.

(** C7, where the code departs from it. The clip is the first second, codec
    copied, as C7 says, but it does not go into the fresh temporary file:
    the file the temp-file facility creates is [/tmp/tmp0], left empty,
    while the clip is written to and returned as [/tmp/tmp0.mp3], a path
    the facility knows nothing of. Here that path was on disk before the
    call, with a fresh [/tmp/tmp0]: the stage hands it to [ffmpeg -y] and
    returns it all the same. *)
Theorem noise_sample_is_not_in_the_fresh_file :
  let w := world_of ["audio.mp3"; "/tmp/tmp0.mp3"] in
  let res := get_noise_sample (studio never false) job_clean (PyStr "audio.mp3") w in
  (tmp_name (studio never false) w ∉ files w)
  /\ temps (since w res.2) = ["/tmp/tmp0"]
  /\ commands (since w res.2)
     = ["ffmpeg -y -i audio.mp3 -acodec copy -ss 00:00:00 -t 00:00:01 /tmp/tmp0.mp3"]
  /\ res.1 = Ok (PyStr "/tmp/tmp0.mp3")
  /\ "/tmp/tmp0.mp3" ∈ files w
  /\ files res.2 = list_to_set ["audio.mp3"; "/tmp/tmp0"; "/tmp/tmp0.mp3"].
Proof.
  cbv zeta.
  split; [apply (bool_decide_unpack _); vm_compute; exact I|].
  split; [vm_compute; reflexivity|].
  split; [vm_compute; reflexivity|].
  split; [vm_compute; reflexivity|].
  split; [apply (bool_decide_unpack _); vm_compute; exact I|].
  vm_compute. reflexivity.
Qed.

(** ** The sensitivity *)

(** C8. Whatever the sensitivity value, [remove_noise] allocates its output
    name [n] and runs the noise-reduction command with the value formatted
    by ['%s'] as its last word, unchanged; the only way the stage fails is a
    non-zero status of that process. The integers 0 and 1 are formatted as
    ["0"] and ["1"], a float as the runtime prints it, and [clean] passes
    [noise_sens], 0.21. *)
Theorem sensitivity_reaches_the_tool_unchecked (h : Host) (self : Sox)
    (audio profile sensitivity : pyval) (w : World) :
  let n := tmp_name h w in
  let cmd := "sox " ++ str h audio ++ " " ++ (n ++ ".mp3") ++ " noisered "
             ++ str h profile ++ " " ++ str h sensitivity in
  (exists st rest,
     since w (remove_noise h self audio profile sensitivity w).2
       = EvTemp n :: EvSystem cmd st :: rest
     /\ commands rest = []
     /\ ((remove_noise h self audio profile sensitivity w).1
          = Ok (PyStr (n ++ ".mp3")) <-> st = 0%Z))
  /\ str h (PyInt 0) = "0"
  /\ str h (PyInt 1) = "1"
  /\ (forall f, str h (PyFloat f) = float_str h f)
  /\ noise_sens = PyFloat 0.21.
Proof.
  intros n cmd. split; [|by repeat split].
  pose proof (remove_noise_ran h self w audio profile sensitivity) as R.
  fold n in R. fold cmd in R.
  destruct (remove_noise h self audio profile sensitivity w) as [r w'].
  inversion R as [w1 Ht|st p w1 Hst Hp Ht _|st p w1 Hst Hp Ht _|st w1 Hst Hp Ht];
    subst; cbn [fst snd]; rewrite (since_trace _ _ _ Ht); cbn [app].
  - by exists 0%Z, [].
  - exists st, [EvUnlink p]. split; [done|]. split; [done|].
    split; [by intros [=]|congruence].
  - exists st, []. split; [done|]. split; [done|].
    split; [by intros [=]|congruence].
  - exists st, []. split; [done|]. split; [done|].
    split; [by intros [=]|congruence].
Qed.

(** The boundary values on a run: 0 and 1 are the last word of the command. *)
Lemma sensitivity_zero_and_one_on_studio :
  commands (since disk
    (remove_noise (studio never false) job_clean (PyStr "a.mp3") (PyStr "n.prof")
                  (PyInt 0) disk).2)
  = ["sox a.mp3 /tmp/tmp0.mp3 noisered n.prof 0"]
  /\ commands (since disk
    (remove_noise (studio never false) job_clean (PyStr "a.mp3") (PyStr "n.prof")
                  (PyInt 1) disk).2)
  = ["sox a.mp3 /tmp/tmp0.mp3 noisered n.prof 1"].
Proof. split; vm_compute; reflexivity. Qed.

(** ** The command line *)

Lemma string_app_assoc (a b c : string) : (a ++ b) ++ c = a ++ b ++ c.
Proof.
  induction a as [|x a IH]; [done|].
  change (String x ((a ++ b) ++ c) = String x (a ++ b ++ c)).
  by rewrite IH.
Qed.

Lemma list_index_Some (x : string) (l : list string) (i : nat) :
  list_index x l = Some i -> l !! i = Some x.
Proof.
  revert i. induction l as [|y l IH]; intros i; cbn; [done|].
  destruct (decide (y = x)) as [->|_].
  - by intros [= <-].
  - destruct (list_index x l) as [j|]; cbn; [|done].
    intros [= <-]. by apply IH.
Qed.

(** C6. A command line with neither ['-v'] nor ['-c'] among its words
    (program name included): the script prints the four usage lines to
    standard output and ends by [exit(1)], so with exit status 1; the set of
    files is as before and no process was run, no temp file created, no
    file removed. *)
Theorem no_flag_prints_usage_and_exits_1 (h : Host) (prog : string)
    (args : list string) (w : World) :
  "-c" ∉ prog :: args -> "-v" ∉ prog :: args ->
  main h (prog :: args) w =
    (Raise (SystemExit 1),
     mkWorld (files w)
             (stdout w ++ "Clean the noise:" ++ nl
              ++ basename prog ++ " -c IN-FILE OUT-FILE" ++ nl
              ++ nl ++ "Increase the volume" ++ nl
              ++ basename prog ++ " -v FACTOR IN-FILE OUT-FILE" ++ nl)
             (trace w))
  /\ exit_status (main h (prog :: args) w).1 = 1%Z.
Proof.
  intros Hc Hv.
  assert (Hmain : main h (prog :: args) w =
    (Raise (SystemExit 1),
     mkWorld (files w)
             (stdout w ++ "Clean the noise:" ++ nl
              ++ basename prog ++ " -c IN-FILE OUT-FILE" ++ nl
              ++ nl ++ "Increase the volume" ++ nl
              ++ basename prog ++ " -v FACTOR IN-FILE OUT-FILE" ++ nl)
             (trace w))).
  { unfold main, parse_flags.
    destruct (decide ("-v" ∈ prog :: args)) as [|_]; [done|].
    destruct (decide ("-c" ∈ prog :: args)) as [|_]; [done|].
    unfold bind, print, getitem, exit, raise, ret. cbn [lookup list_lookup fst snd files stdout trace].
    do 2 f_equal. by rewrite !string_app_assoc. }
  split; [exact Hmain|]. by rewrite Hmain.
Qed.

Lemma no_flag_prints_usage_and_exits_1_witness :
  ("-c" ∉ ["/usr/bin/sox.py"; "input.mp4"; "clean.mp4"])
  /\ ("-v" ∉ ["/usr/bin/sox.py"; "input.mp4"; "clean.mp4"])
  /\ exit_status
       (main (studio never false) ["/usr/bin/sox.py"; "input.mp4"; "clean.mp4"] disk).1
     = 1%Z.
Proof.
  assert (Hc : "-c" ∉ ["/usr/bin/sox.py"; "input.mp4"; "clean.mp4"]).
  { apply (bool_decide_unpack _). vm_compute. exact I. }
  assert (Hv : "-v" ∉ ["/usr/bin/sox.py"; "input.mp4"; "clean.mp4"]).
  { apply (bool_decide_unpack _). vm_compute. exact I. }
  split; [exact Hc|]. split; [exact Hv|].
  exact (proj2 (no_flag_prints_usage_and_exits_1 (studio never false)
                  "/usr/bin/sox.py" ["input.mp4"; "clean.mp4"] disk Hc Hv)).
Defined.

(** The usage text of [/usr/bin/sox.py]. *)
Lemma usage_text_on_studio :
  stdout (main (studio never false) ["/usr/bin/sox.py"; "input.mp4"; "clean.mp4"] disk).2
  = "Clean the noise:" ++ nl ++ "sox.py -c IN-FILE OUT-FILE" ++ nl ++ nl
    ++ "Increase the volume" ++ nl ++ "sox.py -v FACTOR IN-FILE OUT-FILE" ++ nl.
Proof. vm_compute. reflexivity. Qed.

(** C9. ['-v'] is on the command line at position [idx] (its first
    occurrence) and the word after it is not a number for [float]: the
    script ends with [ValueError] while parsing its arguments, in the world
    it started in: no process was run and no temp file created. *)
Theorem non_numeric_factor_fails_before_any_effect (h : Host)
    (argv : list string) (w : World) (idx : nat) (s : string) :
  list_index "-v" argv = Some idx ->
  argv !! S idx = Some s ->
  float_parse h s = None ->
  main h argv w = (Raise ValueError, w).
Proof.
  intros Hidx Hs Hparse.
  pose proof (list_index_Some _ _ _ Hidx) as Hv.
  unfold main, parse_flags.
  destruct (decide ("-v" ∈ argv)) as [_|Hnot].
  2:{ exfalso. apply Hnot. by eapply list_elem_of_lookup_2. }
  rewrite Hidx. unfold list_pop. rewrite Hv.
  rewrite list_lookup_delete_ge, Hs, Hparse; [|done].
  reflexivity.
Qed.

Lemma non_numeric_factor_fails_before_any_effect_witness :
  list_index "-v" ["sox.py"; "-v"; "loud"; "input.mp4"; "louder.mp4"] = Some 1
  /\ ["sox.py"; "-v"; "loud"; "input.mp4"; "louder.mp4"] !! 2 = Some "loud"
  /\ float_parse (studio never false) "loud" = None
  /\ main (studio never false)
          ["sox.py"; "-v"; "loud"; "input.mp4"; "louder.mp4"] disk
     = (Raise ValueError, disk).
Proof.
  assert (H1 : list_index "-v" ["sox.py"; "-v"; "loud"; "input.mp4"; "louder.mp4"]
               = Some 1) by (vm_compute; reflexivity).
  assert (H2 : ["sox.py"; "-v"; "loud"; "input.mp4"; "louder.mp4"] !! 2
               = Some "loud") by reflexivity.
  assert (H3 : float_parse (studio never false) "loud" = None)
    by (vm_compute; reflexivity).
  split; [exact H1|]. split; [exact H2|]. split; [exact H3|].
  exact (non_numeric_factor_fails_before_any_effect (studio never false)
           ["sox.py"; "-v"; "loud"; "input.mp4"; "louder.mp4"] disk 1 "loud"
           H1 H2 H3).
Defined.

(** X12. ['-v'] as the last word: there is no factor to read and the script
    ends with [IndexError], again before any effect. *)
Lemma missing_factor_fails_before_any_effect (h : Host) (argv : list string)
    (w : World) (idx : nat) :
  list_index "-v" argv = Some idx ->
  argv !! S idx = None ->
  main h argv w = (Raise IndexError, w).
Proof.
  intros Hidx Hs.
  pose proof (list_index_Some _ _ _ Hidx) as Hv.
  unfold main, parse_flags.
  destruct (decide ("-v" ∈ argv)) as [_|Hnot].
  2:{ exfalso. apply Hnot. by eapply list_elem_of_lookup_2. }
  rewrite Hidx. unfold list_pop. rewrite Hv.
  rewrite list_lookup_delete_ge, Hs; [|done].
  reflexivity.
Qed.

(** * Further properties of the pipelines *)

(** ** A failed run cleans up nothing but the failed stage's output *)

Lemma commands_app (l1 l2 : list event) :
  commands (l1 ++ l2) = (commands l1 ++ commands l2)%list.
Proof.
  induction l1 as [|e l1 IH]; [done|].
  destruct e; cbn; by rewrite IH.
Qed.




Section FailedRuns.
Variables (h : Host) (self : Sox) (w : World).


End FailedRuns.



(** What that run removed. *)
Lemma clean_profile_failure_on_studio :
  unlinked (since disk (clean (studio is_profile true) job_clean disk).2)
  = ["/tmp/tmp6.prof"]
  /\ temps (since disk (clean (studio is_profile true) job_clean disk).2)
     = ["/tmp/tmp0"; "/tmp/tmp2"; "/tmp/tmp4"; "/tmp/tmp6"]
  /\ (clean (studio is_profile true) job_clean disk).1 = Raise Exception.
Proof. repeat split; vm_compute; reflexivity. Qed.



(** The leak of [incrvol] on a host with names of one length. *)
Lemma nine_host_incrvol_leaks :
  length (temps (since disk (incrvol nine_host job_louder (PyFloat 2) disk).2)) = 3
  /\ forall n,
       n ∈ temps (since disk (incrvol nine_host job_louder (PyFloat 2) disk).2) ->
       n ∉ unlinked (since disk (incrvol nine_host job_louder (PyFloat 2) disk).2).
Proof.
  apply incrvol_never_removes_its_temp_files; [exact nine_host_fixed_length|].
  vm_compute. reflexivity.
Defined.

(** ** Only intermediates and the output path are ever removed *)

(** X7. A path that a run of [clean] or [incrvol] removes, however the run
    ends, is the path of an intermediate file (a name of the allocator with
    [.mp4], [.mp3] or [.prof] appended) or the job's output path. *)
Theorem removed_paths_are_intermediates_or_output (h : Host) (self : Sox)
    (factor : pyval) (w : World) (p : string) :
  p ∈ unlinked (since w (clean h self w).2)
  \/ p ∈ unlinked (since w (incrvol h self factor w).2) ->
  intermediate h p \/ outfile self = PyStr p.
Proof.
  assert (Hgen : forall (m : M unit), emits (tidy h self) (fun _ => True) m ->
                   p ∈ unlinked (since w (m w).2) ->
                   intermediate h p \/ outfile self = PyStr p).
  { intros m Hm Hin. destruct (Hm w) as (l & Ht & HP & _).
    rewrite (since_trace _ _ _ Ht), elem_of_unlinked in Hin.
    rewrite Forall_forall in HP. exact (HP _ Hin p eq_refl). }
  intros [Hin|Hin].
  - exact (Hgen _ (tidy_clean h self) Hin).
  - exact (Hgen _ (tidy_incrvol h self factor) Hin).
Qed.

Lemma removed_paths_are_intermediates_or_output_witness :
  ("/tmp/tmp6.prof" ∈ unlinked (since disk (clean (studio never false) job_clean disk).2)
   \/ "/tmp/tmp6.prof" ∈ unlinked
        (since disk (incrvol (studio never false) job_clean (PyFloat 2) disk).2))
  /\ (intermediate (studio never false) "/tmp/tmp6.prof"
      \/ outfile job_clean = PyStr "/tmp/tmp6.prof").
Proof.
  assert (Hin : "/tmp/tmp6.prof"
                ∈ unlinked (since disk (clean (studio never false) job_clean disk).2)
                \/ "/tmp/tmp6.prof" ∈ unlinked
                     (since disk
                        (incrvol (studio never false) job_clean (PyFloat 2) disk).2)).
  { left. apply (bool_decide_unpack _). vm_compute. exact I. }
  split; [exact Hin|].
  exact (removed_paths_are_intermediates_or_output (studio never false) job_clean
           (PyFloat 2) disk "/tmp/tmp6.prof" Hin).
Defined.

(** * Further properties of the script *)

Lemma list_index_elem_of (x : string) (l : list string) (i : nat) :
  list_index x l = Some i -> x ∈ l.
Proof. intros H. eapply list_elem_of_lookup_2, list_index_Some, H. Qed.

(** The flag handling when ['-c'] is the flag: the first ['-c'] is taken
    out. *)
Lemma parse_flags_c (h : Host) (argv : list string) (w : World) (idx : nat) :
  "-v" ∉ argv -> list_index "-c" argv = Some idx ->
  parse_flags h argv w = (Ok (delete idx argv, true, None), w).
Proof.
  intros Hv Hidx. unfold parse_flags.
  destruct (decide ("-v" ∈ argv)) as [|_]; [done|].
  destruct (decide ("-c" ∈ argv)) as [_|Hc].
  2:{ exfalso. eapply Hc, list_index_elem_of, Hidx. }
  rewrite Hidx. unfold list_pop. by rewrite (list_index_Some _ _ _ Hidx).
Qed.

(** The flag handling when ['-v'] is there with a number after it: the
    first ['-v'] and the word after it are taken out. *)
Lemma parse_flags_v (h : Host) (argv : list string) (w : World) (idx : nat)
    (s : string) (f : float) :
  list_index "-v" argv = Some idx -> argv !! S idx = Some s ->
  float_parse h s = Some f ->
  parse_flags h argv w = (Ok (delete idx (delete idx argv), false, Some f), w).
Proof.
  intros Hidx Hs Hf. unfold parse_flags.
  destruct (decide ("-v" ∈ argv)) as [_|Hv].
  2:{ exfalso. eapply Hv, list_index_elem_of, Hidx. }
  rewrite Hidx. unfold list_pop. rewrite (list_index_Some _ _ _ Hidx).
  by rewrite list_lookup_delete_ge, Hs, Hf.
Qed.

(** Unpacking [sys.argv[1:]] into two names fails unless three words are
    left. *)
Lemma drop_1_not_two (A : Type) (l : list A) :
  length l <> 3 ->
  match drop 1 l with
  | [_; _] => False
  | _ => True
  end.
Proof. destruct l as [|a [|b [|c [|d l]]]]; cbn; done. Qed.

(** X8. ['-c'] may stand anywhere on the command line: when ['-v'] is
    absent and taking the first ['-c'] out leaves the program name, an
    input and an output, the script does what [Sox(input, output).clean()]
    does, with [overwrite] left at [False]. *)
Theorem main_runs_clean (h : Host) (argv : list string) (w : World) (idx : nat)
    (prog i o : string) :
  "-v" ∉ argv -> list_index "-c" argv = Some idx ->
  delete idx argv = [prog; i; o] ->
  main h argv w = clean h (__init__ (PyStr i) (PyStr o) false) w.
Proof.
  intros Hv Hidx Hrest. unfold main.
  rewrite (bind_Ok _ _ _ _ _ (parse_flags_c h argv w idx Hv Hidx)).
  by rewrite Hrest.
Qed.

Lemma main_runs_clean_witness :
  ("-v" ∉ ["sox.py"; "input.mp4"; "clean.mp4"; "-c"])
  /\ list_index "-c" ["sox.py"; "input.mp4"; "clean.mp4"; "-c"] = Some 3
  /\ delete 3 ["sox.py"; "input.mp4"; "clean.mp4"; "-c"]
     = ["sox.py"; "input.mp4"; "clean.mp4"]
  /\ main (studio never false) ["sox.py"; "input.mp4"; "clean.mp4"; "-c"] disk
     = clean (studio never false) job_clean disk.
Proof.
  assert (Hv : "-v" ∉ ["sox.py"; "input.mp4"; "clean.mp4"; "-c"]).
  { apply (bool_decide_unpack _). vm_compute. exact I. }
  assert (Hidx : list_index "-c" ["sox.py"; "input.mp4"; "clean.mp4"; "-c"] = Some 3)
    by (vm_compute; reflexivity).
  assert (Hrest : delete 3 ["sox.py"; "input.mp4"; "clean.mp4"; "-c"]
                  = ["sox.py"; "input.mp4"; "clean.mp4"]) by reflexivity.
  split; [exact Hv|]. split; [exact Hidx|]. split; [exact Hrest|].
  exact (main_runs_clean (studio never false)
           ["sox.py"; "input.mp4"; "clean.mp4"; "-c"] disk 3
           "sox.py" "input.mp4" "clean.mp4" Hv Hidx Hrest).
Defined.

(** X9. ['-v'] wins over ['-c']: when the first ['-v'] is followed by a
    number and taking both words out leaves the program name, an input and
    an output, the script does what [Sox(input, output).incrvol(factor)]
    does, whether or not ['-c'] is among the words. *)
Theorem main_runs_incrvol (h : Host) (argv : list string) (w : World)
    (idx : nat) (s : string) (f : float) (prog i o : string) :
  list_index "-v" argv = Some idx -> argv !! S idx = Some s ->
  float_parse h s = Some f ->
  delete idx (delete idx argv) = [prog; i; o] ->
  main h argv w = incrvol h (__init__ (PyStr i) (PyStr o) false) (PyFloat f) w.
Proof.
  intros Hidx Hs Hf Hrest. unfold main.
  rewrite (bind_Ok _ _ _ _ _ (parse_flags_v h argv w idx s f Hidx Hs Hf)).
  by rewrite Hrest.
Qed.

(** [prog -v 2.0 -c louder.mp4]: the ['-c'] is read as the input path. *)
Lemma main_runs_incrvol_witness :
  list_index "-v" ["sox.py"; "-v"; "2.0"; "-c"; "louder.mp4"] = Some 1
  /\ ["sox.py"; "-v"; "2.0"; "-c"; "louder.mp4"] !! 2 = Some "2.0"
  /\ float_parse (studio never false) "2.0" = Some 2%float
  /\ delete 1 (delete 1 ["sox.py"; "-v"; "2.0"; "-c"; "louder.mp4"])
     = ["sox.py"; "-c"; "louder.mp4"]
  /\ main (studio never false) ["sox.py"; "-v"; "2.0"; "-c"; "louder.mp4"] disk
     = incrvol (studio never false)
               (__init__ (PyStr "-c") (PyStr "louder.mp4") false) (PyFloat 2) disk.
Proof.
  assert (H1 : list_index "-v" ["sox.py"; "-v"; "2.0"; "-c"; "louder.mp4"] = Some 1)
    by (vm_compute; reflexivity).
  assert (H2 : ["sox.py"; "-v"; "2.0"; "-c"; "louder.mp4"] !! 2 = Some "2.0")
    by reflexivity.
  assert (H3 : float_parse (studio never false) "2.0" = Some 2%float)
    by (vm_compute; reflexivity).
  assert (H4 : delete 1 (delete 1 ["sox.py"; "-v"; "2.0"; "-c"; "louder.mp4"])
               = ["sox.py"; "-c"; "louder.mp4"]) by reflexivity.
  split; [exact H1|]. split; [exact H2|]. split; [exact H3|]. split; [exact H4|].
  exact (main_runs_incrvol (studio never false)
           ["sox.py"; "-v"; "2.0"; "-c"; "louder.mp4"] disk 1 "2.0" 2%float
           "sox.py" "-c" "louder.mp4" H1 H2 H3 H4).
Defined.

(** A run that unpacks anything but two names ends with [ValueError] in the
    world the flags were read in. *)
Lemma main_unpack_fails (h : Host) (argv rest : list string) (w : World)
    (do_clean : bool) (factor : option float) :
  parse_flags h argv w = (Ok (rest, do_clean, factor), w) ->
  length rest <> 3 ->
  main h argv w = (Raise ValueError, w).
Proof.
  intros Hflags Hlen. unfold main. rewrite (bind_Ok _ _ _ _ _ Hflags).
  pose proof (drop_1_not_two _ rest Hlen) as Hd.
  destruct (drop 1 rest) as [|a [|b [|c l]]]; done.
Qed.

(** X10. With ['-c'] and without ['-v'], a command line that is not four
    words long ends with [ValueError] from the unpacking of the two file
    names, before any process is run or any file is touched. *)
Theorem main_clean_wrong_arity (h : Host) (argv : list string) (w : World)
    (idx : nat) :
  "-v" ∉ argv -> list_index "-c" argv = Some idx -> length argv <> 4 ->
  main h argv w = (Raise ValueError, w).
Proof.
  intros Hv Hidx Hlen.
  apply (main_unpack_fails h argv (delete idx argv) w true None).
  - by apply parse_flags_c.
  - pose proof (list_index_Some _ _ _ Hidx) as Hl.
    rewrite length_delete by by eexists. lia.
Qed.

Lemma main_clean_wrong_arity_witness :
  ("-v" ∉ ["sox.py"; "-c"; "input.mp4"])
  /\ list_index "-c" ["sox.py"; "-c"; "input.mp4"] = Some 1
  /\ length ["sox.py"; "-c"; "input.mp4"] <> 4
  /\ main (studio never false) ["sox.py"; "-c"; "input.mp4"] disk
     = (Raise ValueError, disk).
Proof.
  assert (Hv : "-v" ∉ ["sox.py"; "-c"; "input.mp4"]).
  { apply (bool_decide_unpack _). vm_compute. exact I. }
  assert (Hidx : list_index "-c" ["sox.py"; "-c"; "input.mp4"] = Some 1)
    by (vm_compute; reflexivity).
  assert (Hlen : length ["sox.py"; "-c"; "input.mp4"] <> 4) by (cbn; lia).
  split; [exact Hv|]. split; [exact Hidx|]. split; [exact Hlen|].
  exact (main_clean_wrong_arity (studio never false)
           ["sox.py"; "-c"; "input.mp4"] disk 1 Hv Hidx Hlen).
Defined.

(** X11. With ['-v'] and a number after it, a command line that is not five
    words long ends with [ValueError] from the unpacking, before any process
    is run or any file is touched; so does the documented ['-c'] line with a
    ['-v FACTOR'] added to it. *)
Theorem main_boost_wrong_arity (h : Host) (argv : list string) (w : World)
    (idx : nat) (s : string) (f : float) :
  list_index "-v" argv = Some idx -> argv !! S idx = Some s ->
  float_parse h s = Some f -> length argv <> 5 ->
  main h argv w = (Raise ValueError, w).
Proof.
  intros Hidx Hs Hf Hlen.
  apply (main_unpack_fails h argv (delete idx (delete idx argv)) w false (Some f)).
  - by eapply parse_flags_v.
  - pose proof (list_index_Some _ _ _ Hidx) as Hl.
    assert (Hs' : delete idx argv !! idx = Some s)
      by by rewrite list_lookup_delete_ge.
    rewrite (length_delete (delete idx argv)) by by eexists.
    rewrite length_delete by by eexists. lia.
Qed.

Lemma main_boost_wrong_arity_witness :
  list_index "-v" ["sox.py"; "-c"; "-v"; "2.0"; "input.mp4"; "clean.mp4"] = Some 2
  /\ ["sox.py"; "-c"; "-v"; "2.0"; "input.mp4"; "clean.mp4"] !! 3 = Some "2.0"
  /\ float_parse (studio never false) "2.0" = Some 2%float
  /\ length ["sox.py"; "-c"; "-v"; "2.0"; "input.mp4"; "clean.mp4"] <> 5
  /\ main (studio never false)
          ["sox.py"; "-c"; "-v"; "2.0"; "input.mp4"; "clean.mp4"] disk
     = (Raise ValueError, disk).
Proof.
  assert (H1 : list_index "-v"
                 ["sox.py"; "-c"; "-v"; "2.0"; "input.mp4"; "clean.mp4"] = Some 2)
    by (vm_compute; reflexivity).
  assert (H2 : ["sox.py"; "-c"; "-v"; "2.0"; "input.mp4"; "clean.mp4"] !! 3
               = Some "2.0") by reflexivity.
  assert (H3 : float_parse (studio never false) "2.0" = Some 2%float)
    by (vm_compute; reflexivity).
  assert (H4 : length ["sox.py"; "-c"; "-v"; "2.0"; "input.mp4"; "clean.mp4"] <> 5)
    by (cbn; lia).
  split; [exact H1|]. split; [exact H2|]. split; [exact H3|]. split; [exact H4|].
  exact (main_boost_wrong_arity (studio never false)
           ["sox.py"; "-c"; "-v"; "2.0"; "input.mp4"; "clean.mp4"] disk 2 "2.0"
           2%float H1 H2 H3 H4).
Defined.

(** [prog input.mp4 louder.mp4 -v]: no factor to read. *)
Lemma missing_factor_fails_before_any_effect_witness :
  list_index "-v" ["sox.py"; "input.mp4"; "louder.mp4"; "-v"] = Some 3
  /\ ["sox.py"; "input.mp4"; "louder.mp4"; "-v"] !! 4 = None
  /\ main (studio never false) ["sox.py"; "input.mp4"; "louder.mp4"; "-v"] disk
     = (Raise IndexError, disk).
Proof.
  assert (H1 : list_index "-v" ["sox.py"; "input.mp4"; "louder.mp4"; "-v"] = Some 3)
    by (vm_compute; reflexivity).
  assert (H2 : ["sox.py"; "input.mp4"; "louder.mp4"; "-v"] !! 4 = None)
    by reflexivity.
  split; [exact H1|]. split; [exact H2|].
  exact (missing_factor_fails_before_any_effect (studio never false)
           ["sox.py"; "input.mp4"; "louder.mp4"; "-v"] disk 3 H1 H2).
Defined.

(** * Further properties of the stages *)

(** X13. A job built without an output path ([Sox(infile)], so [outfile] is
    [None]): the remux command is given the word [None] as its output file;
    when the process returns 0 the stage returns [None], and when it does
    not, [os.unlink(None)] raises [TypeError]. Nothing is removed in either
    case. *)
Theorem merge_without_output_path (h : Host) (i video audio : pyval) (w : World) :
  let self := __init__ i PyNone false in
  let cmd := "ffmpeg -y -i " ++ str h video ++ " -i " ++ str h audio
             ++ " -vcodec copy -acodec copy None" in
  since w (merge h self video audio w).2 = [EvSystem cmd (run_process h cmd w).1]
  /\ ((run_process h cmd w).1 = 0%Z -> (merge h self video audio w).1 = Ok PyNone)
  /\ ((run_process h cmd w).1 <> 0%Z ->
       (merge h self video audio w).1 = Raise TypeError).
Proof.
  intros self cmd.
  change (merge h self video audio w)
    with (exec_shell_cmd_for_file h cmd PyNone w).
  rewrite exec_shell_cmd_for_file_eq. cbn zeta.
  destruct (run_process h cmd w) as [st fs]. cbn [fst snd].
  destruct (Z.eqb_spec st 0) as [->|Hst]; cbn [fst snd].
  - split; [by apply since_trace|]. by split.
  - split; [by apply since_trace|]. by split.
Qed.

Lemma ran_one_shot (w : World) (pre : list event) (cmd : string) (out : pyval)
    (res : result pyval * World) :
  ran w pre cmd out res -> commands pre = [] -> statuses pre = [] ->
  exists st, commands (since w res.2) = [cmd]
             /\ statuses (since w res.2) = [st]
             /\ ((exists v, res.1 = Ok v) <-> st = 0%Z).
Proof.
  intros R Hc Hs.
  destruct R as [w' Ht|st p w' Hst Hp Ht _|st p w' Hst Hp Ht _|st w' Hst Hp Ht];
    cbn [fst snd]; rewrite (since_trace _ _ _ Ht), commands_app, statuses_app, Hc, Hs;
    cbn.
  - exists 0%Z. split; [done|]. split; [done|]. split; [done|]. by eexists.
  - exists st. split; [done|]. split; [done|].
    split; [by intros [v [=]]|congruence].
  - exists st. split; [done|]. split; [done|].
    split; [by intros [v [=]]|congruence].
  - exists st. split; [done|]. split; [done|].
    split; [by intros [v [=]]|congruence].
Qed.

(** X14. Each of the seven stage operations runs exactly one external
    process, whatever its outcome (nothing is retried), and returns a value
    exactly when that process returned 0. *)
Theorem every_stage_runs_one_process (h : Host) (self : Sox) :
  one_shot (extract_video h self)
  /\ one_shot (extract_audio h self)
  /\ (forall audio, one_shot (get_noise_sample h self audio))
  /\ (forall sample, one_shot (gen_noise_profile h self sample))
  /\ (forall audio profile sensitivity,
        one_shot (remove_noise h self audio profile sensitivity))
  /\ (forall audio factor, one_shot (increase_volume h self audio factor))
  /\ (forall video audio, one_shot (merge h self video audio)).
Proof.
  repeat split; intros; intros w; eexists;
    eapply ran_one_shot;
    eauto using extract_video_ran, extract_audio_ran, get_noise_sample_ran,
      gen_noise_profile_ran, remove_noise_ran, increase_volume_ran, merge_ran.
Qed.
